(** * cert-sync: the Secret reconciler that mirrors TLS secrets into ACM

    A shallow embedding of the two reconciler variants of the repository
    (src/controllers/secret_controller.go and src/unnamed/part_000) and of the
    helpers they call, followed by the properties the specification states
    about them.

    Conventions of the embedding.
    - Go byte slices are [list byte]; a nil slice and an empty slice are both [[]].
    - A Go pointer [*T] is [ptr T]: [None] is nil, [Some r] a cell with an
      address and a pointee.  Pointer comparison compares addresses.
    - [time.Time] is an instant counted in nanoseconds (a [Z]); [time.Duration]
      is a number of nanoseconds.
    - A Go function returning [(T, error)] returns a pair whose second
      component is [option error] ([None] is a nil error).
    - Calls that leave the process (client construction, the secret store, the
      certificate service) are answered by an [Env] and recorded, in order, in
      the state threaded through the [Go] monad. *)

From Stdlib Require Import ZArith List Lia Bool.
From Stdlib.Strings Require Import Byte.
From stdpp Require Import base option list strings gmap.
From Equations Require Import Equations.
Import ListNotations.

Local Open Scope string_scope.
Local Open Scope list_scope.

(** A Go [[]byte]. *)
Abbreviation bytes := (list Byte.byte).

(** ** Errors *)

(** A Go [error] value: its message, and whether it is an API status error
    with reason NotFound (what [errors.IsNotFound] looks at). *)
Record error : Type := mkError { Error : string; IsNotFound : bool }.

(** [fmt.Errorf(msg)]. *)
Definition Errorf (msg : string) : error := mkError msg false.

(** ** encoding/pem *)

Module pem.

(** [pem.Block]. *)
Record Block : Type := mkBlock {
  Type_ : string;
  Headers : list (string * string);
  Bytes : bytes
}.

(** The part of [encoding/pem] the splitter relies on.  [Decode] finds the
    next block and returns it with the remaining input ([None] when it finds
    none, Go's nil block); a found block always consumes input, which is why
    the decoding loop of the splitter terminates. *)
Class Codec : Type := {
  Decode : bytes -> option (Block * bytes);
  EncodeToMemory : Block -> bytes;
  Decode_consumes :
    forall data b rest, Decode data = Some (b, rest) -> length rest < length data
}.

End pem.

#[local] Obligation Tactic := idtac.

(** Keeps the equation of a scrutinee in scope of its branches. *)
Definition inspect {A : Type} (a : A) : {b : A | a = b} := exist _ a eq_refl.

Section Splitter.

Context {codec : pem.Codec}.

(** The [for { ... }] loop of splitCertificateChain: [rest] is the input
    still to decode, [certBlocks] the blocks collected so far. *)
Equations decodeAll (rest : bytes) (certBlocks : list pem.Block)
  : list pem.Block by wf (length rest) lt :=
  decodeAll rest certBlocks with inspect (pem.Decode rest) => {
    | exist _ None _ => certBlocks
    | exist _ (Some (block, rest')) Hdec =>
        if String.eqb (pem.Type_ block) "CERTIFICATE"
        then decodeAll rest' (certBlocks ++ [block])
        else decodeAll rest' certBlocks
  }.
Next Obligation.
  intros. eapply pem.Decode_consumes. exact Hdec.
Qed.
Next Obligation.
  intros. eapply pem.Decode_consumes. exact Hdec.
Qed.

(** The [for _, block := range certBlocks[1:]] loop. *)
Definition appendChain (blocks : list pem.Block) : bytes :=
  fold_left (fun chainBytes block => chainBytes ++ pem.EncodeToMemory block)
            blocks [].

(** splitCertificateChain (src/unnamed/part_000, lines 217-250); the result
    is [(leafCertPEM, chainPEM, err)]. *)
Definition splitCertificateChain (certChainPEM : bytes)
  : bytes * bytes * option error :=
  let certBlocks := decodeAll certChainPEM [] in
  match certBlocks with
  | [] => ([], [], Some (Errorf "no certificates found in PEM data"))
  | first :: others =>
      let leafCertPEM := pem.EncodeToMemory first in
      let chainPEM :=
        if (1 <? length certBlocks)%nat then appendChain others else [] in
      (leafCertPEM, chainPEM, None)
  end.

(** The blocks of an input, as the specification reads them: decode
    sequentially until no further block is found. *)
Equations pemBlocks (data : bytes) : list pem.Block
  by wf (length data) lt :=
  pemBlocks data with inspect (pem.Decode data) => {
    | exist _ None _ => []
    | exist _ (Some (block, rest)) Hdec => block :: pemBlocks rest
  }.
Next Obligation.
  intros. eapply pem.Decode_consumes. exact Hdec.
Qed.

Definition isCertificate (b : pem.Block) : bool :=
  String.eqb (pem.Type_ b) "CERTIFICATE".

(** The blocks whose type literal is "CERTIFICATE", in input order. *)
Definition certificateBlocks (data : bytes) : list pem.Block :=
  List.filter isCertificate (pemBlocks data).

End Splitter.

(** ** Pointers *)

Definition addr : Type := positive.

(** A heap cell: where it lives and what it holds.  Nothing in the reconciler
    writes through a pointer, so a pointer carries its pointee with it. *)
Record cell (A : Type) : Type := mkCell { cell_addr : addr; cell_val : A }.
Arguments mkCell {A} _ _.
Arguments cell_addr {A} _.
Arguments cell_val {A} _.

(** A Go [*A]: [None] is nil. *)
Definition ptr (A : Type) : Type := option (cell A).

(** Go's [==] on pointers: equal when both are nil or both point to the same
    variable. *)
Definition ptr_eqb {A : Type} (p q : ptr A) : bool :=
  match p, q with
  | None, None => true
  | Some c, Some d => Pos.eqb (cell_addr c) (cell_addr d)
  | _, _ => false
  end.

(** [aws.ToString] / [aws.ToTime]: the pointee, or the zero value for nil. *)
Definition pointee {A : Type} (p : ptr A) : option A :=
  match p with Some c => Some (cell_val c) | None => None end.

(** ** time *)

Module time.
(** [time.Time], an instant in nanoseconds. *)
Definition Time : Type := Z.
(** [time.Duration], in nanoseconds. *)
Definition Duration : Type := Z.
Definition Nanosecond : Duration := 1%Z.
Definition Microsecond : Duration := (1000 * Nanosecond)%Z.
Definition Millisecond : Duration := (1000 * Microsecond)%Z.
Definition Second : Duration := (1000 * Millisecond)%Z.
Definition Minute : Duration := (60 * Second)%Z.
Definition Hour : Duration := (60 * Minute)%Z.
(** [t.Add(d)]. *)
Definition Add (t : Time) (d : Duration) : Time := (t + d)%Z.
(** [t.Before(u)]: whether the instant t is before u. *)
Definition Before (t u : Time) : bool := (t <? u)%Z.
End time.

(** ** Kubernetes objects *)

(** [types.NamespacedName], the request of a reconciliation. *)
Record NamespacedName : Type := mkNamespacedName {
  req_Namespace : string;
  req_Name : string
}.

Module corev1.
(** The fields of [corev1.Secret] the reconciler reads. *)
Record Secret : Type := mkSecret {
  Namespace : string;
  Name : string;
  Annotations : gmap string string;
  Type_ : string;
  Data : gmap string bytes
}.
Definition SecretTypeTLS : string := "kubernetes.io/tls".
Definition TLSCertKey : string := "tls.crt".
Definition TLSPrivateKeyKey : string := "tls.key".
(** The zero value of [var secret corev1.Secret]. *)
Definition zero : Secret := mkSecret EmptyString EmptyString ∅ EmptyString ∅.
End corev1.

(** Go's [m[k]] on a map of strings: the zero value when the key is absent. *)
Definition index_string (m : gmap string string) (k : string) : string :=
  default EmptyString (m !! k).

(** Go's [v, ok := m[k]]. *)
Definition index_ok (m : gmap string string) (k : string) : string * bool :=
  match m !! k with
  | Some v => (v, true)
  | None => (EmptyString, false)
  end.

(** Go's [m[k]] on a map of byte slices. *)
Definition index_bytes (m : gmap string bytes) (k : string) : bytes :=
  default [] (m !! k).

(** [ctrl.Result]. *)
Module ctrl.
Record Result : Type := mkResult {
  Requeue : bool;
  RequeueAfter : time.Duration
}.
(** [ctrl.Result{}]. *)
Definition zero : Result := mkResult false 0%Z.
(** [ctrl.Result{RequeueAfter: d}]. *)
Definition after (d : time.Duration) : Result := mkResult false d.
End ctrl.

(** ** The certificate service's types (acm, acm/types) *)

Module types.
(** The fields of [types.CertificateDetail] the reconciler reads. *)
Record CertificateDetail : Type := mkCertificateDetail {
  CertificateArn : ptr string;
  DomainName : ptr string;
  SubjectAlternativeNames : list string;
  NotAfter : ptr time.Time
}.
Record Tag : Type := mkTag { Key : ptr string; Value : ptr string }.
End types.

Module acm.
(** [acm.ImportCertificateInput]. *)
Record ImportCertificateInput : Type := mkImportCertificateInput {
  Certificate : bytes;
  PrivateKey : bytes;
  CertificateChain : bytes;
  CertificateArn : ptr string;
  Tags : list types.Tag
}.
End acm.

(** ** The world outside the process *)

Inductive GetReply : Type :=
| GetFound (secret : corev1.Secret)
| GetFailed (err : error).

(** What the service answers to DescribeCertificate, before the client
    library turns it into [types.CertificateDetail]: absent fields are [None]. *)
Record DetailReply : Type := mkDetailReply {
  reply_CertificateArn : option string;
  reply_DomainName : option string;
  reply_SubjectAlternativeNames : list string;
  reply_NotAfter : option time.Time
}.

Inductive DescribeReply : Type :=
| DescribeFailed (err : error)
| DescribeOutput (certificate : option DetailReply).

(** The paginated listing as the paginator walks it.  The first request is
    always made; a request either fails or returns a page with its summaries
    (their ARNs): the last page when NextToken is nil, otherwise a page
    followed by the listing that the request with that token returns. *)
Inductive Listing : Type :=
| ListFailed (err : error)
| LastPage (CertificateSummaryList : list (option string))
| MorePages (CertificateSummaryList : list (option string))
            (NextToken : Listing).

Record Env : Type := mkEnv {
  env_NewACMClient : option error;
  env_Get : NamespacedName -> GetReply;
  env_ListCertificates : Listing;
  env_DescribeCertificate : option string -> DescribeReply;
  env_ImportCertificate : acm.ImportCertificateInput -> option error;
  env_Now : time.Time
}.

(** ** Calls and the state of a run *)

Inductive Call : Type :=
| CallNewACMClient
| CallGet (key : NamespacedName)
| CallListCertificates
| CallDescribeCertificate (arn : option string)
| CallImportCertificate (input : acm.ImportCertificateInput).

(** A call together with the error it returned ([None]: it succeeded). *)
Record Event : Type := mkEvent { ev_call : Call; ev_err : option error }.

Record State : Type := mkState {
  next_addr : addr;          (* the next free address *)
  events : list Event        (* the calls made so far, oldest first *)
}.

Definition initial : State := mkState 1%positive [].

(** ** The Go monad: state, and panics *)

Inductive Outcome (A : Type) : Type :=
| Returns (a : A)
| Panics (msg : string).
Arguments Returns {A} _.
Arguments Panics {A} _.

Definition Go (A : Type) : Type := State -> Outcome A * State.

Definition ret {A : Type} (a : A) : Go A := fun s => (Returns a, s).

Definition bind {A B : Type} (m : Go A) (k : A -> Go B) : Go B :=
  fun s =>
    match m s with
    | (Returns a, s') => k a s'
    | (Panics msg, s') => (Panics msg, s')
    end.

#[global] Instance Go_ret : MRet Go := @ret.
#[global] Instance Go_bind : MBind Go := fun A B k m => bind m k.

Definition panic {A : Type} (msg : string) : Go A := fun s => (Panics msg, s).

(** Taking the address of a fresh variable, or [aws.String(v)]. *)
Definition alloc {A : Type} (v : A) : Go (ptr A) :=
  fun s => (Returns (Some (mkCell (next_addr s) v)),
            mkState (Pos.succ (next_addr s)) (events s)).

(** [*p]. *)
Definition deref {A : Type} (p : ptr A) : Go A :=
  match p with
  | Some c => ret (cell_val c)
  | None => panic "invalid memory address or nil pointer dereference"
  end.

Definition emit (c : Call) (err : option error) : Go unit :=
  fun s => (Returns tt, mkState (next_addr s) (events s ++ [mkEvent c err])).

(** Allocation of an optional field of a reply. *)
Definition alloc_field {A : Type} (v : option A) : Go (ptr A) :=
  match v with
  | Some a => alloc a
  | None => ret None
  end.

(** ** The collaborators, as the reconciler calls them *)

Module awsclient.
(** [awsclient.NewACMClient(ctx)] (pkg/aws): whether it succeeds is the
    environment's; the client itself is a handle without content. *)
Definition NewACMClient (env : Env) : Go (unit * option error) :=
  emit CallNewACMClient (env_NewACMClient env);;
  ret (tt, env_NewACMClient env).
End awsclient.

(** [r.Get(ctx, req.NamespacedName, &secret)]. *)
Definition r_Get (env : Env) (key : NamespacedName)
  : Go (corev1.Secret * option error) :=
  match env_Get env key with
  | GetFound secret => emit (CallGet key) None;; ret (secret, None)
  | GetFailed err => emit (CallGet key) (Some err);; ret (corev1.zero, Some err)
  end.

(** [acmClient.DescribeCertificate]: on success the first component is the
    output's [Certificate] field (nil when the reply carries none), its
    pointer fields freshly allocated by the client library. *)
Definition acm_DescribeCertificate (env : Env) (arn : option string)
  : Go (option types.CertificateDetail * option error) :=
  match env_DescribeCertificate env arn with
  | DescribeFailed err =>
      emit (CallDescribeCertificate arn) (Some err);; ret (None, Some err)
  | DescribeOutput None =>
      emit (CallDescribeCertificate arn) None;; ret (None, None)
  | DescribeOutput (Some reply) =>
      emit (CallDescribeCertificate arn) None;;
      pArn ← alloc_field (reply_CertificateArn reply);
      pDomain ← alloc_field (reply_DomainName reply);
      pNotAfter ← alloc_field (reply_NotAfter reply);
      ret (Some (types.mkCertificateDetail
                   pArn pDomain (reply_SubjectAlternativeNames reply) pNotAfter),
           None)
  end.

(** [acmClient.ImportCertificate]; the output is discarded by both callers. *)
Definition acm_ImportCertificate (env : Env) (input : acm.ImportCertificateInput)
  : Go (option error) :=
  emit (CallImportCertificate input) (env_ImportCertificate env input);;
  ret (env_ImportCertificate env input).

(** [time.Now()]. *)
Definition time_Now (env : Env) : Go time.Time := ret (env_Now env).

(** ** findSecretByDomain

    src/unnamed/part_000 lines 164-214 and
    src/controllers/secret_controller.go lines 157-207: the two files hold the
    same text. *)

(** The loop over [certDetail.SubjectAlternativeNames]: true when it returns
    from inside. *)
Fixpoint matchesSAN (sans : list string) (domainName : string) : bool :=
  match sans with
  | [] => false
  | san :: sans' =>
      if String.eqb san domainName then true else matchesSAN sans' domainName
  end.

(** The loop over [page.CertificateSummaryList].  [Some r]: the function
    returned [r] from inside the loop; [None]: the loop ran to its end.
    [addrOfDomainName] is [&domainName]. *)
Fixpoint rangeSummaries (env : Env) (addrOfDomainName : ptr string)
    (domainName : string) (summaries : list (option string))
  : Go (option (option types.CertificateDetail * option error)) :=
  match summaries with
  | [] => ret None
  | certSummary :: summaries' =>
      '(certificate, err) ← acm_DescribeCertificate env certSummary;
      match err with
      | Some e => ret (Some (None, Some e))
      | None =>
          match certificate with
          | None => panic "invalid memory address or nil pointer dereference"
          | Some certDetail =>
              if ptr_eqb (types.DomainName certDetail) addrOfDomainName
              then ret (Some (Some certDetail, None))
              else if matchesSAN (types.SubjectAlternativeNames certDetail)
                                 domainName
              then ret (Some (Some certDetail, None))
              else rangeSummaries env addrOfDomainName domainName summaries'
          end
      end
  end.

(** The loop [for paginator.HasMorePages()], over what is left of the
    listing. *)
Fixpoint rangePages (env : Env) (addrOfDomainName : ptr string)
    (domainName : string) (listing : Listing)
  : Go (option types.CertificateDetail * option error) :=
  match listing with
  | ListFailed err =>
      emit CallListCertificates (Some err);; ret (None, Some err)
  | LastPage summaries =>
      emit CallListCertificates None;;
      returned ← rangeSummaries env addrOfDomainName domainName summaries;
      match returned with
      | Some r => ret r
      | None => ret (None, None)
      end
  | MorePages summaries listing' =>
      emit CallListCertificates None;;
      returned ← rangeSummaries env addrOfDomainName domainName summaries;
      match returned with
      | Some r => ret r
      | None => rangePages env addrOfDomainName domainName listing'
      end
  end.

(** The parameter [domainName] is a variable of the call: taking its address
    gives a pointer to a cell of its own. *)
Definition findSecretByDomain (env : Env) (domainName : string)
  : Go (option types.CertificateDetail * option error) :=
  addrOfDomainName ← alloc domainName;
  rangePages env addrOfDomainName domainName (env_ListCertificates env).

(** ** The reconciler with the 72-hour window (src/unnamed/part_000) *)

Module Part000.
Section Reconciler.

Context {codec : pem.Codec}.

(** importToAcm (lines 115-137). *)
Definition importToAcm (env : Env) (secret : corev1.Secret)
    (certPEM chainPEM keyPEM : bytes) : Go (option error) :=
  tagKey ← alloc "kubernetes-secrets";
  tagValue ← alloc (corev1.Namespace secret +:+ "/" +:+ corev1.Name secret);
  let input := acm.mkImportCertificateInput
                 certPEM keyPEM chainPEM None [types.mkTag tagKey tagValue] in
  acm_ImportCertificate env input.

(** updateToAcm (lines 139-162). *)
Definition updateToAcm (env : Env) (secret : corev1.Secret)
    (certificateArn : ptr string) (certPEM chainPEM keyPEM : bytes)
  : Go (option error) :=
  tagKey ← alloc "kubernetes-secrets";
  tagValue ← alloc (corev1.Namespace secret +:+ "/" +:+ corev1.Name secret);
  let input := acm.mkImportCertificateInput
                 certPEM keyPEM chainPEM certificateArn
                 [types.mkTag tagKey tagValue] in
  acm_ImportCertificate env input.

(** The condition of line 89; [time.Now()] is only reached when NotAfter
    is not nil. *)
Definition aboutToExpire (env : Env) (existingCertificate : types.CertificateDetail)
  : Go bool :=
  match types.NotAfter existingCertificate with
  | None => ret false
  | Some notAfter =>
      now ← time_Now env;
      ret (time.Before (cell_val notAfter) (time.Add now (72 * time.Hour)%Z))
  end.

(** Reconcile (lines 31-113). *)
Definition Reconcile (env : Env) (req : NamespacedName)
  : Go (ctrl.Result * option error) :=
  '(acmClient, err) ← awsclient.NewACMClient env;
  match err with
  | Some e => ret (ctrl.zero, Some e)
  | None =>
  '(secret, err) ← r_Get env req;
  match err with
  | Some e =>
      if IsNotFound e then ret (ctrl.zero, None) else ret (ctrl.zero, Some e)
  | None =>
  if negb (String.eqb (index_string (corev1.Annotations secret) "sync-to-acm")
                      "true")
  then ret (ctrl.zero, None) else
  if negb (String.eqb (corev1.Type_ secret) corev1.SecretTypeTLS)
  then ret (ctrl.zero, None) else
  let '(domainName, exists_) :=
    index_ok (corev1.Annotations secret) "cert-manager.io/common-name" in
  if negb exists_ || String.eqb domainName EmptyString
  then ret (ctrl.zero, None) else
  '(existingCertificate, err) ← findSecretByDomain env domainName;
  match err with
  | Some e => ret (ctrl.after (5 * time.Minute)%Z, Some e)
  | None =>
  let originalCrt := index_bytes (corev1.Data secret) corev1.TLSCertKey in
  let key := index_bytes (corev1.Data secret) corev1.TLSPrivateKeyKey in
  let '(leafCert, chainCert, err) := splitCertificateChain originalCrt in
  match err with
  | Some e => ret (ctrl.after (5 * time.Minute)%Z, Some e)
  | None =>
  match existingCertificate with
  | Some existing =>
      expiring ← aboutToExpire env existing;
      if expiring : bool then
        err ← updateToAcm env secret (types.CertificateArn existing)
                          leafCert chainCert key;
        match err with
        | Some e => ret (ctrl.after (5 * time.Minute)%Z, Some e)
        | None => ret (ctrl.after (24 * time.Hour)%Z, None)
        end
      else ret (ctrl.after (24 * time.Hour)%Z, None)
  | None =>
      err ← importToAcm env secret leafCert chainCert key;
      match err with
      | Some e => ret (ctrl.after (5 * time.Minute)%Z, Some e)
      | None => ret (ctrl.after (24 * time.Hour)%Z, None)
      end
  end
  end
  end
  end
  end.

End Reconciler.
End Part000.

(** ** The reconciler that waits for expiry
       (src/controllers/secret_controller.go) *)

Module SecretController.

(** importToAcm (lines 110-131): no chain is passed. *)
Definition importToAcm (env : Env) (secret : corev1.Secret)
    (certPEM keyPEM : bytes) : Go (option error) :=
  tagKey ← alloc "kubernetes-secrets";
  tagValue ← alloc (corev1.Namespace secret +:+ "/" +:+ corev1.Name secret);
  let input := acm.mkImportCertificateInput
                 certPEM keyPEM [] None [types.mkTag tagKey tagValue] in
  acm_ImportCertificate env input.

(** updateToAcm (lines 133-155): the ARN arrives as a string and the input
    points to the parameter. *)
Definition updateToAcm (env : Env) (secret : corev1.Secret)
    (certificateArn : string) (certPEM keyPEM : bytes) : Go (option error) :=
  addrOfCertificateArn ← alloc certificateArn;
  tagKey ← alloc "kubernetes-secrets";
  tagValue ← alloc (corev1.Namespace secret +:+ "/" +:+ corev1.Name secret);
  let input := acm.mkImportCertificateInput
                 certPEM keyPEM [] addrOfCertificateArn
                 [types.mkTag tagKey tagValue] in
  acm_ImportCertificate env input.

(** The condition of line 83. *)
Definition expired (env : Env) (existingCertificate : types.CertificateDetail)
  : Go bool :=
  match types.NotAfter existingCertificate with
  | None => ret false
  | Some notAfter =>
      now ← time_Now env;
      ret (time.Before (cell_val notAfter) now)
  end.

(** Reconcile (lines 29-108).  The log call of line 82 dereferences the ARN
    and the expiry of the located record. *)
Definition Reconcile (env : Env) (req : NamespacedName)
  : Go (ctrl.Result * option error) :=
  '(acmClient, err) ← awsclient.NewACMClient env;
  match err with
  | Some e => ret (ctrl.zero, Some e)
  | None =>
  '(secret, err) ← r_Get env req;
  match err with
  | Some e =>
      if IsNotFound e then ret (ctrl.zero, None) else ret (ctrl.zero, Some e)
  | None =>
  if negb (String.eqb (index_string (corev1.Annotations secret) "sync-to-acm")
                      "true")
  then ret (ctrl.zero, None) else
  if negb (String.eqb (corev1.Type_ secret) corev1.SecretTypeTLS)
  then ret (ctrl.zero, None) else
  let '(domainName, exists_) :=
    index_ok (corev1.Annotations secret) "cert-manager.io/common-name" in
  if negb exists_ || String.eqb domainName EmptyString
  then ret (ctrl.zero, None) else
  '(existingCertificate, err) ← findSecretByDomain env domainName;
  match err with
  | Some e => ret (ctrl.zero, Some e)
  | None =>
  let cert := index_bytes (corev1.Data secret) corev1.TLSCertKey in
  let key := index_bytes (corev1.Data secret) corev1.TLSPrivateKeyKey in
  match existingCertificate with
  | Some existing =>
      _ ← deref (types.CertificateArn existing);
      _ ← deref (types.NotAfter existing);
      isExpired ← expired env existing;
      if isExpired : bool then
        certificateArn ← deref (types.CertificateArn existing);
        err ← updateToAcm env secret certificateArn cert key;
        match err with
        | Some e => ret (ctrl.zero, Some e)
        | None => ret (ctrl.zero, None)
        end
      else ret (ctrl.zero, None)
  | None =>
      err ← importToAcm env secret cert key;
      match err with
      | Some e => ret (ctrl.zero, Some e)
      | None => ret (ctrl.zero, None)
      end
  end
  end
  end
  end.

End SecretController.

(** ** Vocabulary of the specification *)

(** The eligibility filter of the specification: the opt-in annotation is the
    literal "true", the type is the TLS type, the domain annotation is present
    and not empty. *)
Definition Eligible (secret : corev1.Secret) (domainName : string) : Prop :=
  corev1.Annotations secret !! "sync-to-acm" = Some "true" /\
  corev1.Type_ secret = "kubernetes.io/tls" /\
  corev1.Annotations secret !! "cert-manager.io/common-name" = Some domainName /\
  domainName <> EmptyString.

Definition Ineligible (secret : corev1.Secret) : Prop :=
  corev1.Annotations secret !! "sync-to-acm" <> Some "true" \/
  corev1.Type_ secret <> "kubernetes.io/tls" \/
  corev1.Annotations secret !! "cert-manager.io/common-name" = None \/
  corev1.Annotations secret !! "cert-manager.io/common-name" = Some EmptyString.

(** The state in which the locator starts: the client was built and the
    secret fetched, both without error. *)
Definition fetched (req : NamespacedName) (s : State) : State :=
  mkState (next_addr s)
          ((events s ++ [mkEvent CallNewACMClient None])
             ++ [mkEvent (CallGet req) None]).

Definition isImport (ev : Event) : bool :=
  match ev_call ev with
  | CallImportCertificate _ => true
  | _ => false
  end.

(** The calls the locator may make. *)
Definition isCatalogFetch (ev : Event) : bool :=
  match ev_call ev with
  | CallListCertificates | CallDescribeCertificate _ => true
  | _ => false
  end.

(** Calls to the certificate service. *)
Definition isRemoteCall (ev : Event) : bool :=
  isCatalogFetch ev || isImport ev.

Definition succeeded (ev : Event) : Prop := ev_err ev = None.

(** What a traversal has fetched: catalog calls only, and either all of them
    succeeded, or the last one failed with [failure] and ended the traversal. *)
Definition Fetches (evs : list Event) (failure : option error) : Prop :=
  Forall (fun ev => isCatalogFetch ev = true) evs /\
  match failure with
  | None => Forall succeeded evs
  | Some e =>
      exists pre c, evs = pre ++ [mkEvent c (Some e)] /\ Forall succeeded pre
  end.

Definition summariesFailure
    (out : Outcome (option (option types.CertificateDetail * option error)))
  : option error :=
  match out with
  | Returns (Some (_, Some e)) => Some e
  | _ => None
  end.

Definition pagesFailure
    (out : Outcome (option types.CertificateDetail * option error))
  : option error :=
  match out with
  | Returns (_, Some e) => Some e
  | _ => None
  end.

(** The run issued exactly one more call after the locate step left state
    [s2]: ImportCertificate with [input]. *)
Definition importedAfter (env : Env) (s2 s' : State)
    (input : acm.ImportCertificateInput) : Prop :=
  events s' = events s2 ++ [mkEvent (CallImportCertificate input)
                                    (env_ImportCertificate env input)].

Definition noImportSince (s s2 : State) : Prop :=
  exists evs,
    events s2 = events s ++ evs /\ Forall (fun ev => isImport ev = false) evs.

(** Runs only ever add calls to the record. *)

Definition appends {A : Type} (m : Go A) : Prop :=
  forall s, exists evs, events (snd (m s)) = events s ++ evs.

(** C1, as the specification words the REPLACE rule: "expiry at or before
    now + 72 hours" leads to an import carrying the located record's ARN. *)
Definition replaces_at_or_before_window : Prop :=
  forall (codec : pem.Codec) (env : Env) (req : NamespacedName)
         (secret : corev1.Secret) (domainName : string)
         (existing : types.CertificateDetail) (notAfter : time.Time)
         (s s2 : State) (leaf chain : bytes),
    env_NewACMClient env = None ->
    env_Get env req = GetFound secret ->
    Eligible secret domainName ->
    findSecretByDomain env domainName (fetched req s)
      = (Returns (Some existing, None), s2) ->
    splitCertificateChain (index_bytes (corev1.Data secret) corev1.TLSCertKey)
      = (leaf, chain, None) ->
    pointee (types.NotAfter existing) = Some notAfter ->
    (notAfter <= env_Now env + 72 * time.Hour)%Z ->
    exists input,
      importedAfter env s2 (snd (Part000.Reconcile env req s)) input /\
      acm.CertificateArn input = types.CertificateArn existing.

(** ** A small codec and a small world, to run the code on *)

Module Sample.

(** A framing with the shape the splitter needs: a block is a tag byte
    ("C" for a CERTIFICATE block, anything else for a PRIVATE KEY block)
    followed by its payload up to a newline. *)
Fixpoint untilNewline (data : bytes) : bytes * bytes :=
  match data with
  | [] => ([], [])
  | b :: rest =>
      if Byte.eqb b x0a then ([], rest)
      else let '(payload, rest') := untilNewline rest in (b :: payload, rest')
  end.

Definition Decode (data : bytes) : option (pem.Block * bytes) :=
  match data with
  | [] => None
  | tag :: rest =>
      let '(payload, rest') := untilNewline rest in
      Some (pem.mkBlock (if Byte.eqb tag "C"%byte then "CERTIFICATE"
                         else "PRIVATE KEY")
                        [] payload,
            rest')
  end.

Definition EncodeToMemory (b : pem.Block) : bytes :=
  (if String.eqb (pem.Type_ b) "CERTIFICATE" then "C"%byte else "K"%byte)
    :: pem.Bytes b ++ [x0a].


(** A key block, then two certificate blocks. *)
Definition bundle : bytes :=
  ["K"; "k"; x0a; "C"; "a"; "b"; x0a; "C"; "c"; x0a]%byte.

Definition secret : corev1.Secret :=
  corev1.mkSecret "default" "web-tls"
    {[ "sync-to-acm" := "true"; "cert-manager.io/common-name" := "example.com" ]}
    "kubernetes.io/tls"
    {[ "tls.crt" := bundle; "tls.key" := ["K"; "k"; x0a]%byte ]}.

Definition req : NamespacedName := mkNamespacedName "default" "web-tls".

Definition arn : string := "arn:aws:acm:eu-west-1:1:certificate/a".

(** A catalog of one certificate, for example.com, listed among its
    alternate names, expiring at [notAfter]; the clock shows [now]. *)
Definition world (now : time.Time) (notAfter : option time.Time) : Env :=
  mkEnv None
        (fun _ => GetFound secret)
        (LastPage [Some arn])
        (fun _ => DescribeOutput
                    (Some (mkDetailReply (Some arn) (Some "example.com")
                                         ["example.com"] notAfter)))
        (fun _ => None)
        now.

(** The same catalog when the certificate carries no alternate names. *)
Definition worldWithoutSANs : Env :=
  mkEnv None
        (fun _ => GetFound secret)
        (LastPage [Some arn])
        (fun _ => DescribeOutput
                    (Some (mkDetailReply (Some arn) (Some "example.com")
                                         [] (Some 0%Z))))
        (fun _ => None)
        0%Z.

(** An empty catalog. *)
Definition emptyWorld : Env :=
  mkEnv None (fun _ => GetFound secret) (LastPage [])
        (fun _ => DescribeFailed (Errorf "ResourceNotFoundException"))
        (fun _ => None) 0%Z.

(** A catalog whose second page cannot be fetched. *)
Definition brokenWorld : Env :=
  mkEnv None (fun _ => GetFound secret)
        (MorePages [Some arn] (ListFailed (Errorf "ThrottlingException")))
        (fun _ => DescribeOutput
                    (Some (mkDetailReply (Some arn) (Some "other.org")
                                         ["other.org"] None)))
        (fun _ => None) 0%Z.

(** No credentials: the client cannot be built. *)
Definition noClientWorld : Env :=
  mkEnv (Some (Errorf "failed to load AWS config"))
        (fun _ => GetFailed (mkError "not found" true)) (LastPage [])
        (fun _ => DescribeFailed (Errorf "unreachable"))
        (fun _ => None) 0%Z.

End Sample.

(** Values met in the runs of the sample worlds. *)
Module Runs.

Import Sample.

(** The record the locator returns in [world now (Some t)]: the ARN, the
    domain and the expiry sit in the cells allocated after [&domainName]. *)
Definition existing (notAfter : option time.Time) : types.CertificateDetail :=
  types.mkCertificateDetail
    (Some (mkCell 2%positive arn))
    (Some (mkCell 3%positive "example.com"))
    ["example.com"]
    match notAfter with
    | Some t => Some (mkCell 4%positive t)
    | None => None
    end.

Definition certBlock (payload : bytes) : pem.Block :=
  pem.mkBlock "CERTIFICATE" [] payload.

Definition leaf : bytes := ["C"; "a"; "b"; x0a]%byte.
Definition chain : bytes := ["C"; "c"; x0a]%byte.

(** A secret without the opt-in annotation, and its world. *)
Definition plainSecret : corev1.Secret :=
  corev1.mkSecret "default" "web-tls"
    {[ "cert-manager.io/common-name" := "example.com" ]}
    "kubernetes.io/tls"
    {[ "tls.crt" := bundle ]}.

Definition plainWorld : Env :=
  mkEnv None (fun _ => GetFound plainSecret) (LastPage [])
        (fun _ => DescribeFailed (Errorf "unreachable"))
        (fun _ => None) 0%Z.

End Runs.

(** ** Further vocabulary: runs, tags, traversals *)

(** The calls a run added to the record it started from. *)
Definition newEvents (s s' : State) : list Event :=
  drop (length (events s)) (events s').

(** A tag as the service reads it: the strings its pointers hold. *)
Definition tagOf (t : types.Tag) : option string * option string :=
  (pointee (types.Key t), pointee (types.Value t)).

(** The tag that names the secret an import came from. *)
Definition ownershipTag (secret : corev1.Secret) : option string * option string :=
  (Some "kubernetes-secrets",
   Some (corev1.Namespace secret +:+ "/" +:+ corev1.Name secret)).

(** A successful DescribeCertificate call, and the calls of a page that was
    listed and whose summaries were all described. *)
Definition describeCall (arn : option string) : Event :=
  mkEvent (CallDescribeCertificate arn) None.

Definition pageCalls (summaries : list (option string)) : list Event :=
  mkEvent CallListCertificates None :: map describeCall summaries.

(** A listing that starts with the given pages, each with a NextToken. *)
Fixpoint morePages (pages : list (list (option string))) (rest : Listing)
  : Listing :=
  match pages with
  | [] => rest
  | page :: pages' => MorePages page (morePages pages' rest)
  end.

(** The summaries of the first page, when its request succeeds. *)
Definition firstPage (listing : Listing) : option (list (option string)) :=
  match listing with
  | ListFailed _ => None
  | LastPage summaries => Some summaries
  | MorePages summaries _ => Some summaries
  end.

(** All the summaries a listing can return. *)
Fixpoint summariesOf (listing : Listing) : list (option string) :=
  match listing with
  | ListFailed _ => []
  | LastPage summaries => summaries
  | MorePages summaries listing' => summaries ++ summariesOf listing'
  end.

(** The record the client library builds from a reply. *)
Definition describes (reply : DetailReply) (d : types.CertificateDetail) : Prop :=
  pointee (types.CertificateArn d) = reply_CertificateArn reply /\
  pointee (types.DomainName d) = reply_DomainName reply /\
  types.SubjectAlternativeNames d = reply_SubjectAlternativeNames reply /\
  pointee (types.NotAfter d) = reply_NotAfter reply.

(** A candidate that can be described and does not list the domain among its
    alternate names. *)
Definition NoMatch (env : Env) (domainName : string) (arn : option string)
  : Prop :=
  exists reply,
    env_DescribeCertificate env arn = DescribeOutput (Some reply) /\
    matchesSAN (reply_SubjectAlternativeNames reply) domainName = false.

(** Every successful DescribeCertificate output carries a certificate. *)
Definition alwaysCertificate (env : Env) : Prop :=
  forall arn, env_DescribeCertificate env arn <> DescribeOutput None.

(** What holds of every result a computation returns. *)
Definition returning {A : Type} (P : A -> Prop) (m : Go A) : Prop :=
  forall s r s', m s = (Returns r, s') -> P r.

(** A computation that never panics. *)
Definition safe {A : Type} (m : Go A) : Prop :=
  forall s, exists r s', m s = (Returns r, s').

(** The shape of the calls of a reconciliation: calls that are not imports,
    possibly followed by one import, issued only after calls that all
    succeeded. *)
Definition importLast (env : Env) (evs : list Event)
    (imported : option acm.ImportCertificateInput) : Prop :=
  match imported with
  | None => Forall (fun ev => isImport ev = false) evs
  | Some input =>
      exists before,
        evs = before ++ [mkEvent (CallImportCertificate input)
                                 (env_ImportCertificate env input)] /\
        Forall (fun ev => isImport ev = false) before /\
        Forall succeeded before
  end.

(** A run from [s] to [s'] whose calls have the shape [importLast], with [Q]
    holding of the input of its import. *)
Definition Shaped (env : Env) (s s' : State)
    (Q : acm.ImportCertificateInput -> Prop) : Prop :=
  exists evs imported,
    events s' = events s ++ evs /\
    importLast env evs imported /\
    (forall input, imported = Some input -> Q input).

(** What part_000 puts in an import for [req]. *)
Definition Part000Import {codec : pem.Codec} (env : Env) (req : NamespacedName)
    (input : acm.ImportCertificateInput) : Prop :=
  exists secret,
    env_Get env req = GetFound secret /\
    splitCertificateChain (index_bytes (corev1.Data secret) corev1.TLSCertKey)
      = (acm.Certificate input, acm.CertificateChain input, None) /\
    acm.PrivateKey input
      = index_bytes (corev1.Data secret) corev1.TLSPrivateKeyKey /\
    map tagOf (acm.Tags input) = [ownershipTag secret].

(** What secret_controller.go puts in an import for [req]. *)
Definition SecretControllerImport (env : Env) (req : NamespacedName)
    (input : acm.ImportCertificateInput) : Prop :=
  exists secret,
    env_Get env req = GetFound secret /\
    acm.Certificate input
      = index_bytes (corev1.Data secret) corev1.TLSCertKey /\
    acm.CertificateChain input = [] /\
    acm.PrivateKey input
      = index_bytes (corev1.Data secret) corev1.TLSPrivateKeyKey /\
    map tagOf (acm.Tags input) = [ownershipTag secret].

(** A block that [Decode] reads back from its own encoding, whatever
    follows it. *)
Definition decodesBack {codec : pem.Codec} (b : pem.Block) : Prop :=
  forall rest,
    pem.Decode (pem.EncodeToMemory b ++ rest) = Some (b, rest).

(** Worlds for the edge cases. *)
Module Edge.

(** The opt-in secret of the samples, without its payload. *)
Definition emptySecret : corev1.Secret :=
  corev1.mkSecret "default" "web-tls"
    {[ "sync-to-acm" := "true"; "cert-manager.io/common-name" := "example.com" ]}
    "kubernetes.io/tls"
    ∅.

Definition emptySecretWorld : Env :=
  mkEnv None (fun _ => GetFound emptySecret) (LastPage [])
        (fun _ => DescribeFailed (Errorf "unreachable"))
        (fun _ => None) 0%Z.

(** The secret was deleted. *)
Definition deletedWorld : Env :=
  mkEnv None (fun _ => GetFailed (mkError "secrets web-tls not found" true))
        (LastPage [])
        (fun _ => DescribeFailed (Errorf "unreachable"))
        (fun _ => None) 0%Z.

(** The secret store cannot be read. *)
Definition unreadableWorld : Env :=
  mkEnv None (fun _ => GetFailed (mkError "connection refused" false))
        (LastPage [])
        (fun _ => DescribeFailed (Errorf "unreachable"))
        (fun _ => None) 0%Z.

(** A DescribeCertificate output without a certificate. *)
Definition hollowWorld : Env :=
  mkEnv None (fun _ => GetFound Sample.secret) (LastPage [Some Sample.arn])
        (fun _ => DescribeOutput None)
        (fun _ => None) 0%Z.

(** Two pages; only the certificate "b" of the second page lists
    example.com, and the page after it cannot be fetched. *)
Definition replyFor (arn : option string) : DetailReply :=
  if decide (arn = Some "b")
  then mkDetailReply arn (Some "b.example.com") ["example.com"] (Some 0%Z)
  else mkDetailReply arn (Some "example.com") ["www.example.org"] (Some 0%Z).

Definition pagedWorld : Env :=
  mkEnv None (fun _ => GetFound Sample.secret)
        (MorePages [Some "a"]
           (MorePages [Some "b"; Some "c"]
              (ListFailed (Errorf "ThrottlingException"))))
        (fun arn => DescribeOutput (Some (replyFor arn)))
        (fun _ => None) 0%Z.

(** Two full pages, none of whose certificates lists example.com. *)
Definition foreignWorld : Env :=
  mkEnv None (fun _ => GetFound Sample.secret)
        (MorePages [Some "a"] (LastPage [Some "c"; Some "d"]))
        (fun arn => DescribeOutput (Some (replyFor arn)))
        (fun _ => None) 0%Z.

(** The import part_000 issues for the sample secret when the catalog is
    empty, and the one secret_controller.go issues. *)
Definition sampleTags : list types.Tag :=
  [types.mkTag (Some (mkCell 2%positive "kubernetes-secrets"))
               (Some (mkCell 3%positive "default/web-tls"))].

Definition createdInput : acm.ImportCertificateInput :=
  acm.mkImportCertificateInput
    ["C"; "a"; "b"; x0a]%byte ["K"; "k"; x0a]%byte ["C"; "c"; x0a]%byte
    None sampleTags.

Definition createdWholeInput : acm.ImportCertificateInput :=
  acm.mkImportCertificateInput
    Sample.bundle ["K"; "k"; x0a]%byte [] None sampleTags.

(** The calls of a run on the sample secret up to the end of the locate step
    over an empty catalog. *)
Definition quietPrefix : list Event :=
  [mkEvent CallNewACMClient None; mkEvent (CallGet Sample.req) None;
   mkEvent CallListCertificates None].

(** One page; the call for "x" fails, before "b", which lists example.com,
    is reached. *)
Definition flakyWorld : Env :=
  mkEnv None (fun _ => GetFound Sample.secret)
        (LastPage [Some "a"; Some "x"; Some "b"])
        (fun arn => if decide (arn = Some "x")
                    then DescribeFailed (Errorf "ThrottlingException")
                    else DescribeOutput (Some (replyFor arn)))
        (fun _ => None) 0%Z.

Definition keyBlock : pem.Block :=
  pem.mkBlock "PRIVATE KEY" [] ["k"]%byte.

(** The catalog of [Sample.world], its certificate without an expiry, seen
    from the secret without payload. *)
Definition payloadlessWorld : Env :=
  mkEnv None (fun _ => GetFound emptySecret)
        (LastPage [Some Sample.arn])
        (fun _ => DescribeOutput
                    (Some (mkDetailReply (Some Sample.arn) (Some "example.com")
                                         ["example.com"] None)))
        (fun _ => None) 0%Z.

End Edge.

(** C9, as worded: a located record without an expiry always leads to the
    success result, whatever the secret's certificate payload is. *)
Definition keeps_record_without_expiry_whatever_the_payload : Prop :=
  forall (codec : pem.Codec) (env : Env) (req : NamespacedName)
         (secret : corev1.Secret) (domainName : string)
         (existing : types.CertificateDetail) (s s2 : State),
    env_NewACMClient env = None ->
    env_Get env req = GetFound secret ->
    Eligible secret domainName ->
    findSecretByDomain env domainName (fetched req s)
      = (Returns (Some existing, None), s2) ->
    types.NotAfter existing = None ->
    Part000.Reconcile env req s
      = (Returns (ctrl.after (24 * time.Hour)%Z, None), s2).

(** * Properties *)

(** ** The sample codec is a codec *)

Lemma untilNewline_length (data : bytes) :
  length (snd (Sample.untilNewline data)) <= length data.
Proof.
  induction data as [|b rest IH]; simpl; [lia|].
  destruct (Byte.eqb b x0a); simpl; [lia|].
  destruct (Sample.untilNewline rest) as [payload rest']; simpl in *; lia.
Qed.

Lemma Sample_Decode_consumes (data : bytes) (b : pem.Block) (rest : bytes) :
  Sample.Decode data = Some (b, rest) -> length rest < length data.
Proof.
  destruct data as [|tag tl]; simpl; [discriminate|].
  pose proof (untilNewline_length tl) as Hlen.
  destruct (Sample.untilNewline tl) as [payload rest']; simpl in *.
  intros [= _ <-]. lia.
Qed.

Definition sampleCodec : pem.Codec :=
  {| pem.Decode := Sample.Decode;
     pem.EncodeToMemory := Sample.EncodeToMemory;
     pem.Decode_consumes := Sample_Decode_consumes |}.

(** ** The splitter *)

Section SplitterFacts.

Context {codec : pem.Codec}.

Lemma decodeAll_done (rest : bytes) (certBlocks : list pem.Block) :
  pem.Decode rest = None -> decodeAll rest certBlocks = certBlocks.
Proof.
  intros Hnone. simp decodeAll.
  destruct (inspect (pem.Decode rest)) as [[[b r]|] Heq]; simp decodeAll.
  - congruence.
  - reflexivity.
Qed.

Lemma decodeAll_step (rest rest' : bytes) (block : pem.Block)
    (certBlocks : list pem.Block) :
  pem.Decode rest = Some (block, rest') ->
  decodeAll rest certBlocks =
    if isCertificate block
    then decodeAll rest' (certBlocks ++ [block])
    else decodeAll rest' certBlocks.
Proof.
  intros Hsome. simp decodeAll.
  destruct (inspect (pem.Decode rest)) as [[[b r]|] Heq]; simp decodeAll.
  - assert (b = block /\ r = rest') as [-> ->] by (split; congruence).
    reflexivity.
  - congruence.
Qed.

Lemma pemBlocks_done (data : bytes) :
  pem.Decode data = None -> pemBlocks data = [].
Proof.
  intros Hnone. simp pemBlocks.
  destruct (inspect (pem.Decode data)) as [[[b r]|] Heq]; simp pemBlocks.
  - congruence.
  - reflexivity.
Qed.

Lemma pemBlocks_step (data rest : bytes) (block : pem.Block) :
  pem.Decode data = Some (block, rest) ->
  pemBlocks data = block :: pemBlocks rest.
Proof.
  intros Hsome. simp pemBlocks.
  destruct (inspect (pem.Decode data)) as [[[b r]|] Heq]; simp pemBlocks.
  - assert (b = block /\ r = rest) as [-> ->] by (split; congruence).
    reflexivity.
  - congruence.
Qed.

(** The decoding loop appends to its accumulator exactly the certificate
    blocks of the input, in order. *)
Lemma decodeAll_certificateBlocks (n : nat) :
  forall (rest : bytes) (certBlocks : list pem.Block),
    length rest < n ->
    decodeAll rest certBlocks = certBlocks ++ certificateBlocks rest.
Proof.
  induction n as [|n IH]; intros rest certBlocks Hlen; [lia|].
  unfold certificateBlocks.
  destruct (pem.Decode rest) as [[block rest']|] eqn:Hdec.
  - pose proof (pem.Decode_consumes _ _ _ Hdec) as Hshort.
    rewrite (decodeAll_step _ _ _ _ Hdec), (pemBlocks_step _ _ _ Hdec).
    simpl. destruct (isCertificate block).
    + rewrite IH by lia. unfold certificateBlocks.
      rewrite <- app_assoc. reflexivity.
    + rewrite IH by lia. reflexivity.
  - rewrite (decodeAll_done _ _ Hdec), (pemBlocks_done _ Hdec).
    simpl. rewrite app_nil_r. reflexivity.
Qed.

Lemma decodeAll_nil (data : bytes) :
  decodeAll data [] = certificateBlocks data.
Proof.
  rewrite (decodeAll_certificateBlocks (S (length data))) by lia.
  reflexivity.
Qed.

Lemma fold_appendChain (blocks : list pem.Block) (chainBytes : bytes) :
  fold_left (fun acc block => acc ++ pem.EncodeToMemory block) blocks chainBytes
  = chainBytes ++ concat (map pem.EncodeToMemory blocks).
Proof.
  revert chainBytes.
  induction blocks as [|b blocks IH]; intros chainBytes; simpl.
  - rewrite app_nil_r. reflexivity.
  - rewrite IH, <- app_assoc. reflexivity.
Qed.

Lemma appendChain_concat (blocks : list pem.Block) :
  appendChain blocks = concat (map pem.EncodeToMemory blocks).
Proof. unfold appendChain. rewrite fold_appendChain. reflexivity. Qed.

(** C4. For every input whose certificate blocks are [first :: others],
    splitCertificateChain succeeds (nil error); the leaf is the encoding of
    [first] and the chain is the concatenation, in input order, of the
    encodings of [others] (empty when [others] is empty).  Blocks of other
    types do not contribute, and the function is a function of its input
    only: no state is read or written. *)
Theorem splitCertificateChain_leaf_and_chain
    (data : bytes) (first : pem.Block) (others : list pem.Block) :
  certificateBlocks data = first :: others ->
  splitCertificateChain data =
    (pem.EncodeToMemory first,
     concat (map pem.EncodeToMemory others),
     None).
Proof.
  intros Hblocks. unfold splitCertificateChain.
  rewrite decodeAll_nil, Hblocks. simpl.
  destruct others as [|second others]; simpl; [reflexivity|].
  rewrite appendChain_concat. reflexivity.
Qed.

(** C6. For every input without a CERTIFICATE block (the empty input, or
    blocks of other types only), splitCertificateChain returns the error
    "no certificates found in PEM data", a nil leaf and a nil chain. *)
Theorem splitCertificateChain_no_certificate (data : bytes) :
  certificateBlocks data = [] ->
  splitCertificateChain data =
    ([], [], Some (Errorf "no certificates found in PEM data")).
Proof.
  intros Hblocks. unfold splitCertificateChain.
  rewrite decodeAll_nil, Hblocks. reflexivity.
Qed.

End SplitterFacts.

(** ** Running a computation *)

Lemma run_bind {A B : Type} (m : Go A) (k : A -> Go B) (s s' : State) (a : A) :
  m s = (Returns a, s') -> (m ≫= k) s = k a s'.
Proof. intros Hm. unfold mbind, Go_bind, bind. rewrite Hm. reflexivity. Qed.

Lemma run_bind_panic {A B : Type} (m : Go A) (k : A -> Go B) (s s' : State)
    (msg : string) :
  m s = (Panics msg, s') -> (m ≫= k) s = (Panics msg, s').
Proof. intros Hm. unfold mbind, Go_bind, bind. rewrite Hm. reflexivity. Qed.

Lemma run_emit (c : Call) (err : option error) (s : State) :
  emit c err s = (Returns tt, mkState (next_addr s) (events s ++ [mkEvent c err])).
Proof. reflexivity. Qed.

Lemma run_alloc {A : Type} (v : A) (s : State) :
  alloc v s = (Returns (Some (mkCell (next_addr s) v)),
               mkState (Pos.succ (next_addr s)) (events s)).
Proof. reflexivity. Qed.

Lemma run_NewACMClient (env : Env) (s : State) :
  awsclient.NewACMClient env s =
    (Returns (tt, env_NewACMClient env),
     mkState (next_addr s)
             (events s ++ [mkEvent CallNewACMClient (env_NewACMClient env)])).
Proof. reflexivity. Qed.

Lemma run_Get_found (env : Env) (key : NamespacedName) (secret : corev1.Secret)
    (s : State) :
  env_Get env key = GetFound secret ->
  r_Get env key s =
    (Returns (secret, None),
     mkState (next_addr s) (events s ++ [mkEvent (CallGet key) None])).
Proof. intros Hget. unfold r_Get. rewrite Hget. reflexivity. Qed.

Lemma run_Get_failed (env : Env) (key : NamespacedName) (err : error) (s : State) :
  env_Get env key = GetFailed err ->
  r_Get env key s =
    (Returns (corev1.zero, Some err),
     mkState (next_addr s) (events s ++ [mkEvent (CallGet key) (Some err)])).
Proof. intros Hget. unfold r_Get. rewrite Hget. reflexivity. Qed.

Lemma run_ImportCertificate (env : Env) (input : acm.ImportCertificateInput)
    (s : State) :
  acm_ImportCertificate env input s =
    (Returns (env_ImportCertificate env input),
     mkState (next_addr s)
             (events s ++ [mkEvent (CallImportCertificate input)
                                   (env_ImportCertificate env input)])).
Proof. reflexivity. Qed.

(** ** The eligibility filter, as the code tests it *)

Lemma Eligible_filter (secret : corev1.Secret) (domainName : string) :
  Eligible secret domainName ->
  negb (String.eqb (index_string (corev1.Annotations secret) "sync-to-acm")
                   "true") = false /\
  negb (String.eqb (corev1.Type_ secret) corev1.SecretTypeTLS) = false /\
  index_ok (corev1.Annotations secret) "cert-manager.io/common-name"
    = (domainName, true) /\
  String.eqb domainName EmptyString = false.
Proof.
  intros (Hsync & Htype & Hdomain & Hnonempty).
  unfold index_string, index_ok. rewrite Hsync, Htype, Hdomain. simpl.
  repeat split; try reflexivity.
  apply String.eqb_neq. exact Hnonempty.
Qed.

Lemma Ineligible_filter (secret : corev1.Secret) :
  Ineligible secret ->
  negb (String.eqb (index_string (corev1.Annotations secret) "sync-to-acm")
                   "true") = true \/
  negb (String.eqb (corev1.Type_ secret) corev1.SecretTypeTLS) = true \/
  (let '(domainName, exists_) :=
     index_ok (corev1.Annotations secret) "cert-manager.io/common-name" in
   negb exists_ || String.eqb domainName EmptyString) = true.
Proof.
  unfold index_string, index_ok.
  intros [Hsync | [Htype | [Hmissing | Hempty]]].
  - left. apply negb_true_iff, String.eqb_neq.
    destruct (corev1.Annotations secret !! "sync-to-acm") as [v|]; simpl.
    + intros ->. apply Hsync. reflexivity.
    + discriminate.
  - right; left. apply negb_true_iff, String.eqb_neq. exact Htype.
  - right; right. rewrite Hmissing. reflexivity.
  - right; right. rewrite Hempty. reflexivity.
Qed.

(** ** The locator *)


Lemma Fetches_nil : Fetches [] None.
Proof. split; constructor. Qed.

Lemma Fetches_failed (c : Call) (e : error) :
  isCatalogFetch (mkEvent c (Some e)) = true ->
  Fetches [mkEvent c (Some e)] (Some e).
Proof.
  intros Hc. split.
  - constructor; [exact Hc | constructor].
  - exists [], c. split; [reflexivity | constructor].
Qed.

Lemma Fetches_cons (c : Call) (evs : list Event) (failure : option error) :
  isCatalogFetch (mkEvent c None) = true ->
  Fetches evs failure ->
  Fetches (mkEvent c None :: evs) failure.
Proof.
  intros Hc [Hcalls Hfail]. split.
  - constructor; assumption.
  - destruct failure as [e|].
    + destruct Hfail as (pre & c' & -> & Hpre).
      exists (mkEvent c None :: pre), c'. split; [reflexivity|].
      constructor; [reflexivity | exact Hpre].
    + constructor; [reflexivity | exact Hfail].
Qed.

Lemma Fetches_app (evs1 evs2 : list Event) (failure : option error) :
  Fetches evs1 None -> Fetches evs2 failure -> Fetches (evs1 ++ evs2) failure.
Proof.
  intros [Hcalls1 Hok1] [Hcalls2 Hfail]. split.
  - apply Forall_app. split; assumption.
  - destruct failure as [e|].
    + destruct Hfail as (pre & c & -> & Hpre).
      exists (evs1 ++ pre), c. split.
      * rewrite app_assoc. reflexivity.
      * apply Forall_app. split; assumption.
    + apply Forall_app. split; assumption.
Qed.

(** A failed traversal holds a failed fetch; a clean one holds none. *)
Lemma Fetches_failure_inv (evs : list Event) (failure : option error) :
  Fetches evs failure ->
  (exists ev, In ev evs /\ ev_err ev <> None) ->
  exists e c, failure = Some e /\ In (mkEvent c (Some e)) evs.
Proof.
  intros [_ Hfail] (ev & Hin & Herr).
  destruct failure as [e|].
  - destruct Hfail as (pre & c & -> & _).
    exists e, c. split; [reflexivity|].
    apply in_or_app. right. left. reflexivity.
  - exfalso. apply Herr.
    rewrite List.Forall_forall in Hfail. apply Hfail. exact Hin.
Qed.



(** One DescribeCertificate call: one event carrying the error returned, no
    record next to an error, and pointer fields in cells that were free
    before the call. *)
Lemma run_DescribeCertificate (env : Env) (arn : option string) (s s' : State)
    (out : Outcome (option types.CertificateDetail * option error)) :
  acm_DescribeCertificate env arn s = (out, s') ->
  exists cert err,
    out = Returns (cert, err) /\
    events s' = events s ++ [mkEvent (CallDescribeCertificate arn) err] /\
    (next_addr s <= next_addr s')%positive /\
    (err <> None -> cert = None) /\
    (forall d c, cert = Some d -> types.DomainName d = Some c ->
                 (next_addr s <= cell_addr c)%positive).
Proof.
  unfold acm_DescribeCertificate.
  destruct (env_DescribeCertificate env arn) as [e | [reply|]].
  - intros [= <- <-]. exists None, (Some e). simpl.
    repeat split; try reflexivity; try lia. discriminate.
  - destruct reply as [rArn rDomain rSANs rNotAfter].
    unfold mbind, Go_bind, bind, alloc_field, emit, alloc, ret. simpl.
    destruct rArn, rDomain, rNotAfter; simpl; intros [= <- <-];
      eexists _, None; simpl;
      (repeat split; [lia | congruence | intros d c [= <-]; simpl; intros [= <-]; simpl; lia]).
  - intros [= <- <-]. exists None, None. simpl.
    repeat split; try reflexivity; try lia. discriminate.
Qed.

Section Locator.

Variable env : Env.
Variable domainName : string.
Variable a : addr.

(** [&domainName]. *)
Let addrOfDomainName : ptr string := Some (mkCell a domainName).

(** A record deserialised after [domainName] was allocated never has its
    DomainName pointer equal to [&domainName]. *)
Lemma DomainName_never_equal (d : types.CertificateDetail) (next : addr) :
  (a < next)%positive ->
  (forall c, types.DomainName d = Some c -> (next <= cell_addr c)%positive) ->
  ptr_eqb (types.DomainName d) addrOfDomainName = false.
Proof.
  intros Hlt Hfresh. unfold ptr_eqb, addrOfDomainName.
  destruct (types.DomainName d) as [c|]; [|reflexivity].
  specialize (Hfresh c eq_refl). simpl.
  apply Pos.eqb_neq. lia.
Qed.

Lemma rangeSummaries_fetches (summaries : list (option string)) :
  forall (s s' : State)
         (out : Outcome (option (option types.CertificateDetail * option error))),
    (a < next_addr s)%positive ->
    rangeSummaries env addrOfDomainName domainName summaries s = (out, s') ->
    exists evs,
      events s' = events s ++ evs /\
      Fetches evs (summariesFailure out) /\
      (next_addr s <= next_addr s')%positive /\
      (forall r e, out = Returns (Some (r, Some e)) -> r = None) /\
      (forall d e, out = Returns (Some (Some d, e)) ->
         matchesSAN (types.SubjectAlternativeNames d) domainName = true).
Proof.
  induction summaries as [|certSummary summaries IH]; intros s s' out Hlt.
  - intros [= <- <-]. exists []. rewrite app_nil_r.
    repeat split; try constructor; try lia; discriminate.
  - cbn [rangeSummaries]. unfold mbind, Go_bind, bind.
    destruct (acm_DescribeCertificate env certSummary s) as [o s1] eqn:Hdesc.
    apply run_DescribeCertificate in Hdesc
      as (cert & err & -> & Hev & Hnext & Hnil & Hfresh).
    destruct err as [e|].
    + assert (cert = None) as -> by (apply Hnil; discriminate).
      intros [= <- <-]. eexists. split; [exact Hev|].
      split; [apply Fetches_failed; reflexivity|].
      split; [exact Hnext|]. split.
      * intros r e' [= <- _]. reflexivity.
      * discriminate.
    + destruct cert as [d|].
      * rewrite (DomainName_never_equal d (next_addr s) Hlt
                   (fun c => Hfresh d c eq_refl)).
        destruct (matchesSAN (types.SubjectAlternativeNames d) domainName)
          eqn:Hsan.
        -- intros [= <- <-]. eexists. split; [exact Hev|].
           split; [apply Fetches_cons; [reflexivity | apply Fetches_nil]|].
           split; [exact Hnext|]. split.
           ++ discriminate.
           ++ intros d' e' [= <- _]. exact Hsan.
        -- intros Hrest.
           apply IH in Hrest as (evs & Hev' & Hf & Hnext' & Hr & Hd); [|lia].
           exists (mkEvent (CallDescribeCertificate certSummary) None :: evs).
           split; [rewrite Hev', Hev, <- app_assoc; reflexivity|].
           split; [apply Fetches_cons; [reflexivity | exact Hf]|].
           split; [lia|]. split; assumption.
      * intros [= <- <-]. eexists. split; [exact Hev|].
        split; [apply Fetches_cons; [reflexivity | apply Fetches_nil]|].
        split; [exact Hnext|]. split; discriminate.
Qed.

Lemma rangePages_fetches (listing : Listing) :
  forall (s s' : State)
         (out : Outcome (option types.CertificateDetail * option error)),
    (a < next_addr s)%positive ->
    rangePages env addrOfDomainName domainName listing s = (out, s') ->
    exists evs,
      events s' = events s ++ evs /\
      Fetches evs (pagesFailure out) /\
      (forall r e, out = Returns (r, Some e) -> r = None) /\
      (forall d e, out = Returns (Some d, e) ->
         matchesSAN (types.SubjectAlternativeNames d) domainName = true).
Proof.
  induction listing as [err | summaries | summaries listing' IH];
    intros s s' out Hlt; cbn [rangePages]; unfold mbind, Go_bind, bind;
    rewrite run_emit.
  - intros [= <- <-]. eexists. split; [reflexivity|].
    split; [apply Fetches_failed; reflexivity|]. split.
    + intros r e [= <- _]. reflexivity.
    + discriminate.
  - destruct (rangeSummaries env addrOfDomainName domainName summaries _)
      as [o s1] eqn:Hsum.
    apply rangeSummaries_fetches in Hsum
      as (evs & Hev & Hf & _ & Hr & Hd); [|exact Hlt].
    simpl in Hev.
    destruct o as [[[r e]|]|msg]; intros [= <- <-];
      (exists (mkEvent CallListCertificates None :: evs);
       split; [rewrite Hev, <- app_assoc; reflexivity|];
       split; [apply Fetches_cons; [reflexivity | exact Hf]|]).
    + split.
      * intros r' e' [= -> ->]. eapply Hr. reflexivity.
      * intros d e' [= -> ->]. eapply Hd. reflexivity.
    + split; discriminate.
    + split; discriminate.
  - destruct (rangeSummaries env addrOfDomainName domainName summaries _)
      as [o s1] eqn:Hsum.
    apply rangeSummaries_fetches in Hsum
      as (evs & Hev & Hf & Hnext & Hr & Hd); [|exact Hlt].
    simpl in Hev, Hnext.
    destruct o as [[[r e]|]|msg].
    + intros [= <- <-].
      exists (mkEvent CallListCertificates None :: evs).
      split; [rewrite Hev, <- app_assoc; reflexivity|].
      split; [apply Fetches_cons; [reflexivity | exact Hf]|]. split.
      * intros r' e' [= -> ->]. eapply Hr. reflexivity.
      * intros d e' [= -> ->]. eapply Hd. reflexivity.
    + intros Hrest.
      apply IH in Hrest as (evs' & Hev' & Hf' & Hr' & Hd'); [|lia].
      exists ((mkEvent CallListCertificates None :: evs) ++ evs').
      split; [rewrite Hev', Hev, <- !app_assoc; reflexivity|].
      split; [|split; assumption].
      apply Fetches_app; [|exact Hf'].
      apply Fetches_cons; [reflexivity | exact Hf].
    + intros [= <- <-].
      exists (mkEvent CallListCertificates None :: evs).
      split; [rewrite Hev, <- app_assoc; reflexivity|].
      split; [apply Fetches_cons; [reflexivity | exact Hf]|].
      split; discriminate.
Qed.

End Locator.

Lemma findSecretByDomain_fetches (env : Env) (domainName : string)
    (s s' : State)
    (out : Outcome (option types.CertificateDetail * option error)) :
  findSecretByDomain env domainName s = (out, s') ->
  exists evs,
    events s' = events s ++ evs /\
    Fetches evs (pagesFailure out) /\
    (forall r e, out = Returns (r, Some e) -> r = None) /\
    (forall d e, out = Returns (Some d, e) ->
       matchesSAN (types.SubjectAlternativeNames d) domainName = true).
Proof.
  unfold findSecretByDomain.
  rewrite (run_bind _ _ _ _ _ (run_alloc domainName s)).
  intros Hrun. apply rangePages_fetches in Hrun; [exact Hrun|].
  simpl. lia.
Qed.

(** The locator calls the catalog only: it never imports. *)
Lemma findSecretByDomain_no_import (env : Env) (domainName : string)
    (s s' : State)
    (out : Outcome (option types.CertificateDetail * option error)) :
  findSecretByDomain env domainName s = (out, s') ->
  exists evs,
    events s' = events s ++ evs /\ Forall (fun ev => isImport ev = false) evs.
Proof.
  intros Hrun.
  apply findSecretByDomain_fetches in Hrun as (evs & Hev & [Hcalls _] & _).
  exists evs. split; [exact Hev|].
  eapply List.Forall_impl; [|exact Hcalls].
  intros [c err]. unfold isCatalogFetch, isImport. simpl.
  destruct c; congruence.
Qed.

(** C5. In every run of the locator, the calls it makes are catalog fetches
    (ListCertificates, DescribeCertificate).  If one of them failed, the
    locator returns a nil record together with the error of that fetch; so a
    nil record with a nil error ("absent") is returned only when every fetch
    of the traversal succeeded. *)
Theorem findSecretByDomain_failed_fetch_is_error
    (env : Env) (domainName : string) (s : State) :
  let run := findSecretByDomain env domainName s in
  exists evs,
    events (snd run) = events s ++ evs /\
    Forall (fun ev => isCatalogFetch ev = true) evs /\
    ((exists ev, In ev evs /\ ev_err ev <> None) ->
     exists e c, fst run = Returns (None, Some e) /\
                 In (mkEvent c (Some e)) evs) /\
    (fst run = Returns (None, None) -> Forall succeeded evs).
Proof.
  intros run. subst run.
  destruct (findSecretByDomain env domainName s) as [out s'] eqn:Hrun.
  apply findSecretByDomain_fetches in Hrun as (evs & Hev & Hf & Hr & _).
  exists evs. simpl. split; [exact Hev|]. split; [apply Hf|]. split.
  - intros Hfailed.
    destruct (Fetches_failure_inv _ _ Hf Hfailed) as (e & c & Hfail & Hin).
    exists e, c. split; [|exact Hin].
    destruct out as [[r [e'|]]|msg]; simpl in Hfail; try discriminate.
    injection Hfail as ->.
    rewrite (Hr r e eq_refl). reflexivity.
  - intros ->. destruct Hf as [_ Hok]. exact Hok.
Qed.

(** C2, on the code.  A catalog of one candidate whose primary domain is the
    requested domain, and which does not list it among its alternate names:
    the locator returns neither the record nor an error.  Line 200 compares
    the record's DomainName pointer with the address of the parameter, never
    the two strings. *)
Theorem findSecretByDomain_misses_primary_domain
    (env : Env) (domainName : string) (arn : option string)
    (reply : DetailReply) (s : State) :
  env_ListCertificates env = LastPage [arn] ->
  env_DescribeCertificate env arn = DescribeOutput (Some reply) ->
  reply_DomainName reply = Some domainName ->
  matchesSAN (reply_SubjectAlternativeNames reply) domainName = false ->
  fst (findSecretByDomain env domainName s) = Returns (None, None).
Proof.
  intros Hlist Hdesc Hdomain Hsan.
  destruct (findSecretByDomain env domainName s) as [out s'] eqn:Hrun.
  revert Hrun. unfold findSecretByDomain.
  rewrite Hlist. cbn [rangePages rangeSummaries].
  unfold acm_DescribeCertificate. rewrite Hdesc.
  destruct reply as [rArn rDomain rSANs rNotAfter]. simpl in Hdomain, Hsan.
  subst rDomain.
  unfold mbind, Go_bind, bind, alloc_field, alloc, emit, ret. simpl.
  destruct rArn, rNotAfter; simpl;
    match goal with
    | |- context [Pos.eqb ?x ?y] =>
        replace (Pos.eqb x y) with false by (symmetry; apply Pos.eqb_neq; lia)
    end;
    rewrite Hsan; intros [= <- <-]; reflexivity.
Qed.

(** ** The reconciler *)

(** The first two steps of a reconciliation whose client is built and whose
    secret is found. *)
Ltac reconcile_fetch env req s Hclient Hget :=
  rewrite (run_bind _ _ _ _ _ (run_NewACMClient env s));
  rewrite Hclient; cbv beta iota zeta;
  rewrite (run_bind _ _ _ _ _ (run_Get_found env req _ _ Hget));
  cbv beta iota zeta; fold (fetched req s).

(** ... and the filter, for an eligible secret. *)
Ltac reconcile_filter Helig :=
  let H1 := fresh in let H2 := fresh in let H3 := fresh in let H4 := fresh in
  destruct (Eligible_filter _ _ Helig) as (H1 & H2 & H3 & H4);
  rewrite H1, H2, H3; cbv beta iota zeta; rewrite H4; cbn [negb orb].

Section ReconcilerFacts.

Context {codec : pem.Codec}.

(** C7. For every secret that was fetched and fails the eligibility filter
    (opt-in annotation not the literal "true", or type not the TLS type, or
    domain annotation missing or empty), Reconcile returns the zero result
    with a nil error, and the only calls of the run are the construction of
    the client and the fetch of the secret: no ListCertificates,
    DescribeCertificate or ImportCertificate. *)
Theorem Reconcile_skips_ineligible
    (env : Env) (req : NamespacedName) (secret : corev1.Secret) (s : State) :
  env_NewACMClient env = None ->
  env_Get env req = GetFound secret ->
  Ineligible secret ->
  Part000.Reconcile env req s = (Returns (ctrl.zero, None), fetched req s) /\
  exists evs,
    events (fetched req s) = events s ++ evs /\
    Forall (fun ev => isRemoteCall ev = false) evs.
Proof.
  intros Hclient Hget Hinel. split.
  - unfold Part000.Reconcile.
    reconcile_fetch env req s Hclient Hget.
    apply Ineligible_filter in Hinel.
    destruct (negb (String.eqb (index_string _ _) "true")); [reflexivity|].
    destruct (negb (String.eqb (corev1.Type_ secret) _)); [reflexivity|].
    destruct Hinel as [? | [? | Hdomain]]; try discriminate.
    destruct (index_ok _ _) as [domainName exists_].
    rewrite Hdomain. reflexivity.
  - exists [mkEvent CallNewACMClient None; mkEvent (CallGet req) None].
    split.
    + unfold fetched. simpl. rewrite <- app_assoc. reflexivity.
    + repeat constructor.
Qed.

(** Nothing is imported between the start of a run and the end of its
    locate step. *)
Lemma located_no_import (env : Env) (req : NamespacedName)
    (domainName : string) (s s2 : State)
    (out : Outcome (option types.CertificateDetail * option error)) :
  findSecretByDomain env domainName (fetched req s) = (out, s2) ->
  exists evs,
    events s2 = events s ++ evs /\ Forall (fun ev => isImport ev = false) evs.
Proof.
  intros Hloc.
  apply findSecretByDomain_no_import in Hloc as (evs & Hev & Hno).
  exists ([mkEvent CallNewACMClient None; mkEvent (CallGet req) None] ++ evs).
  split.
  - rewrite Hev. unfold fetched. simpl. rewrite <- !app_assoc. reflexivity.
  - apply Forall_app. split; [repeat constructor | exact Hno].
Qed.

(** The steps of Part000.Reconcile up to the decision. *)
Ltac reconcile_upto_decision env req s Hclient Hget Helig Hloc Hsplit :=
  unfold Part000.Reconcile;
  reconcile_fetch env req s Hclient Hget;
  reconcile_filter Helig;
  rewrite (run_bind _ _ _ _ _ Hloc); cbv beta iota zeta;
  rewrite Hsplit; cbv beta iota zeta.

Ltac run_upsert :=
  unfold Part000.updateToAcm, Part000.importToAcm;
  rewrite ?(run_bind _ _ _ _ _ (run_alloc _ _)); cbv beta iota zeta;
  rewrite ?(run_bind _ _ _ _ _ (run_alloc _ _)); cbv beta iota zeta;
  rewrite (run_bind _ _ _ _ _ (run_ImportCertificate _ _ _)).

(** C9. When the located record has no expiry timestamp (NotAfter is nil),
    the reconciler takes the branch "exists and is valid": the run ends in
    the state the locate step left, so no import is issued anywhere in the
    run, and the result is the success result, a requeue after 24 hours with
    a nil error.  (The certificate payload must have been split first: a
    payload without a certificate ends the run before the decision.) *)
Theorem Reconcile_keeps_record_without_expiry
    (env : Env) (req : NamespacedName) (secret : corev1.Secret)
    (domainName : string) (existing : types.CertificateDetail)
    (s s2 : State) (leaf chain : bytes) :
  env_NewACMClient env = None ->
  env_Get env req = GetFound secret ->
  Eligible secret domainName ->
  findSecretByDomain env domainName (fetched req s)
    = (Returns (Some existing, None), s2) ->
  splitCertificateChain (index_bytes (corev1.Data secret) corev1.TLSCertKey)
    = (leaf, chain, None) ->
  types.NotAfter existing = None ->
  Part000.Reconcile env req s
    = (Returns (ctrl.after (24 * time.Hour)%Z, None), s2) /\
  exists evs,
    events s2 = events s ++ evs /\ Forall (fun ev => isImport ev = false) evs.
Proof.
  intros Hclient Hget Helig Hloc Hsplit Hnil. split.
  - reconcile_upto_decision env req s Hclient Hget Helig Hloc Hsplit.
    unfold Part000.aboutToExpire. rewrite Hnil. reflexivity.
  - eapply located_no_import. exact Hloc.
Qed.


(** C1, as the code decides.  After a successful locate and split:
    - a located record whose expiry is at or after now + 72 hours: no
      import, the run ends in the state the locate step left;
    - a located record whose expiry is strictly before now + 72 hours
      (already past included): one import, carrying the located record's
      ARN pointer, the leaf, the chain and the key;
    - no located record: one import with a nil ARN. *)
Theorem Reconcile_decision
    (env : Env) (req : NamespacedName) (secret : corev1.Secret)
    (domainName : string) (existingCertificate : option types.CertificateDetail)
    (s s2 : State) (leaf chain : bytes) :
  env_NewACMClient env = None ->
  env_Get env req = GetFound secret ->
  Eligible secret domainName ->
  findSecretByDomain env domainName (fetched req s)
    = (Returns (existingCertificate, None), s2) ->
  splitCertificateChain (index_bytes (corev1.Data secret) corev1.TLSCertKey)
    = (leaf, chain, None) ->
  let run := Part000.Reconcile env req s in
  (forall existing notAfter,
      existingCertificate = Some existing ->
      pointee (types.NotAfter existing) = Some notAfter ->
      (env_Now env + 72 * time.Hour <= notAfter)%Z ->
      snd run = s2) /\
  (forall existing notAfter,
      existingCertificate = Some existing ->
      pointee (types.NotAfter existing) = Some notAfter ->
      (notAfter < env_Now env + 72 * time.Hour)%Z ->
      exists input,
        importedAfter env s2 (snd run) input /\
        acm.CertificateArn input = types.CertificateArn existing /\
        acm.Certificate input = leaf /\
        acm.CertificateChain input = chain /\
        acm.PrivateKey input
          = index_bytes (corev1.Data secret) corev1.TLSPrivateKeyKey) /\
  (existingCertificate = None ->
      exists input,
        importedAfter env s2 (snd run) input /\
        acm.CertificateArn input = None /\
        acm.Certificate input = leaf /\
        acm.CertificateChain input = chain /\
        acm.PrivateKey input
          = index_bytes (corev1.Data secret) corev1.TLSPrivateKeyKey).
Proof.
  intros Hclient Hget Helig Hloc Hsplit run. subst run.
  reconcile_upto_decision env req s Hclient Hget Helig Hloc Hsplit.
  split; [|split].
  - intros existing notAfter -> HnotAfter Hlate.
    unfold Part000.aboutToExpire.
    destruct (types.NotAfter existing) as [c|]; [|discriminate].
    injection HnotAfter as HnotAfter.
    unfold time_Now, time.Before, time.Add.
    unfold mbind, Go_bind, bind, ret. cbv beta iota.
    rewrite HnotAfter.
    replace (notAfter <? env_Now env + 72 * time.Hour)%Z with false
      by (symmetry; apply Z.ltb_ge; exact Hlate).
    reflexivity.
  - intros existing notAfter -> HnotAfter Hsoon.
    unfold Part000.aboutToExpire.
    destruct (types.NotAfter existing) as [c|]; [|discriminate].
    injection HnotAfter as HnotAfter.
    unfold time_Now, time.Before, time.Add.
    unfold mbind, Go_bind, bind, ret. cbv beta iota.
    rewrite HnotAfter.
    replace (notAfter <? env_Now env + 72 * time.Hour)%Z with true
      by (symmetry; apply Z.ltb_lt; exact Hsoon).
    unfold Part000.updateToAcm, acm_ImportCertificate.
    unfold mbind, Go_bind, bind, ret, alloc, emit. cbn [fst snd].
    match goal with
    | |- context [CallImportCertificate ?i] => exists i
    end.
    unfold importedAfter.
    destruct (env_ImportCertificate env _); cbn;
      repeat split; reflexivity.
  - intros ->.
    unfold Part000.importToAcm, acm_ImportCertificate.
    unfold mbind, Go_bind, bind, ret, alloc, emit. cbn [fst snd].
    match goal with
    | |- context [CallImportCertificate ?i] => exists i
    end.
    unfold importedAfter.
    destruct (env_ImportCertificate env _); cbn;
      repeat split; reflexivity.
Qed.


(** C8. For every reconciliation of an eligible secret (client built,
    secret fetched):
    - when the locate step fails with [e], Reconcile returns a requeue after
      5 minutes and [e], and no import was issued;
    - when the split step fails with [e], the same;
    - otherwise either no import is issued and Reconcile returns a requeue
      after 24 hours with a nil error (the record is kept), or exactly one
      import is issued and Reconcile returns a requeue after 24 hours with a
      nil error when the import succeeded, a requeue after 5 minutes with
      the import's error when it failed. *)
Theorem Reconcile_requeue
    (env : Env) (req : NamespacedName) (secret : corev1.Secret)
    (domainName : string) (s : State) :
  env_NewACMClient env = None ->
  env_Get env req = GetFound secret ->
  Eligible secret domainName ->
  let run := Part000.Reconcile env req s in
  let located := findSecretByDomain env domainName (fetched req s) in
  let split :=
    splitCertificateChain (index_bytes (corev1.Data secret) corev1.TLSCertKey) in
  (forall r e s2,
      located = (Returns (r, Some e), s2) ->
      run = (Returns (ctrl.after (5 * time.Minute)%Z, Some e), s2) /\
      noImportSince s s2) /\
  (forall r e s2,
      located = (Returns (r, None), s2) ->
      snd split = Some e ->
      run = (Returns (ctrl.after (5 * time.Minute)%Z, Some e), s2) /\
      noImportSince s s2) /\
  (forall r s2,
      located = (Returns (r, None), s2) ->
      snd split = None ->
      run = (Returns (ctrl.after (24 * time.Hour)%Z, None), s2) \/
      exists input,
        importedAfter env s2 (snd run) input /\
        fst run = Returns
                    match env_ImportCertificate env input with
                    | Some e => (ctrl.after (5 * time.Minute)%Z, Some e)
                    | None => (ctrl.after (24 * time.Hour)%Z, None)
                    end).
Proof.
  intros Hclient Hget Helig run located split. subst run located split.
  split; [|split].
  - intros r e s2 Hloc. split; [|eapply located_no_import; exact Hloc].
    unfold Part000.Reconcile.
    reconcile_fetch env req s Hclient Hget.
    reconcile_filter Helig.
    rewrite (run_bind _ _ _ _ _ Hloc). reflexivity.
  - intros r e s2 Hloc Hsplit.
    split; [|eapply located_no_import; exact Hloc].
    destruct (splitCertificateChain _) as [[leaf chain] err] eqn:Hsp.
    simpl in Hsplit. subst err.
    reconcile_upto_decision env req s Hclient Hget Helig Hloc Hsp.
    reflexivity.
  - intros r s2 Hloc Hsplit.
    destruct (splitCertificateChain _) as [[leaf chain] err] eqn:Hsp.
    simpl in Hsplit. subst err.
    reconcile_upto_decision env req s Hclient Hget Helig Hloc Hsp.
    destruct r as [existing|].
    + unfold Part000.aboutToExpire, time_Now.
      unfold mbind, Go_bind, bind, ret.
      destruct (types.NotAfter existing) as [c|]; cbv beta iota;
        [|left; reflexivity].
      destruct (time.Before _ _); [|left; reflexivity].
      right. unfold Part000.updateToAcm, acm_ImportCertificate.
      unfold mbind, Go_bind, bind, ret, alloc, emit. cbn [fst snd].
      match goal with
      | |- context [CallImportCertificate ?i] => exists i
      end.
      unfold importedAfter.
      destruct (env_ImportCertificate env _); cbn; split; reflexivity.
    + right. unfold Part000.importToAcm, acm_ImportCertificate.
      unfold mbind, Go_bind, bind, ret, alloc, emit. cbn [fst snd].
      match goal with
      | |- context [CallImportCertificate ?i] => exists i
      end.
      unfold importedAfter.
      destruct (env_ImportCertificate env _); cbn; split; reflexivity.
Qed.

(** C3. The two variants test different things on a located record with an
    expiry: secret_controller.go asks whether it is strictly before now,
    part_000 whether it is strictly before now + 72 hours.  So for every
    located record (with an ARN) whose expiry lies from now up to, but not
    including, now + 72 hours, on the same inputs secret_controller.go
    imports nothing and returns, while part_000 issues one import carrying
    the record's ARN. *)
Theorem variants_disagree_inside_window
    (env : Env) (req : NamespacedName) (secret : corev1.Secret)
    (domainName : string) (existing : types.CertificateDetail)
    (arn : string) (notAfter : time.Time)
    (s s2 : State) (leaf chain : bytes) :
  env_NewACMClient env = None ->
  env_Get env req = GetFound secret ->
  Eligible secret domainName ->
  findSecretByDomain env domainName (fetched req s)
    = (Returns (Some existing, None), s2) ->
  splitCertificateChain (index_bytes (corev1.Data secret) corev1.TLSCertKey)
    = (leaf, chain, None) ->
  pointee (types.CertificateArn existing) = Some arn ->
  pointee (types.NotAfter existing) = Some notAfter ->
  (env_Now env <= notAfter < env_Now env + 72 * time.Hour)%Z ->
  (forall s0, SecretController.expired env existing s0
              = (Returns (notAfter <? env_Now env)%Z, s0)) /\
  (forall s0, Part000.aboutToExpire env existing s0
              = (Returns (notAfter <? env_Now env + 72 * time.Hour)%Z, s0)) /\
  SecretController.Reconcile env req s = (Returns (ctrl.zero, None), s2) /\
  exists input,
    importedAfter env s2 (snd (Part000.Reconcile env req s)) input /\
    acm.CertificateArn input = types.CertificateArn existing.
Proof.
  intros Hclient Hget Helig Hloc Hsplit Harn HnotAfter [Hnow Hwindow].
  destruct (types.CertificateArn existing) as [cArn|] eqn:HcArn;
    [|discriminate].
  destruct (types.NotAfter existing) as [c|] eqn:Hc; [|discriminate].
  injection HnotAfter as HnotAfter.
  assert (Hexpired : forall s0, SecretController.expired env existing s0
                       = (Returns (notAfter <? env_Now env)%Z, s0)).
  { intros s0. unfold SecretController.expired. rewrite Hc, <- HnotAfter.
    reflexivity. }
  assert (Habout : forall s0, Part000.aboutToExpire env existing s0
                     = (Returns (notAfter <? env_Now env + 72 * time.Hour)%Z, s0)).
  { intros s0. unfold Part000.aboutToExpire. rewrite Hc, <- HnotAfter.
    reflexivity. }
  split; [exact Hexpired|]. split; [exact Habout|]. split.
  - unfold SecretController.Reconcile.
    reconcile_fetch env req s Hclient Hget.
    reconcile_filter Helig.
    rewrite (run_bind _ _ _ _ _ Hloc). cbv beta iota zeta.
    rewrite HcArn, Hc.
    rewrite (run_bind _ _ _ _ _ (eq_refl : deref (Some cArn) s2 = (Returns _, s2))).
    rewrite (run_bind _ _ _ _ _ (eq_refl : deref (Some c) s2 = (Returns _, s2))).
    rewrite (run_bind _ _ _ _ _ (Hexpired s2)).
    replace (notAfter <? env_Now env)%Z with false
      by (symmetry; apply Z.ltb_ge; exact Hnow).
    reflexivity.
  - reconcile_upto_decision env req s Hclient Hget Helig Hloc Hsplit.
    rewrite (run_bind _ _ _ _ _ (Habout s2)), HcArn.
    replace (notAfter <? env_Now env + 72 * time.Hour)%Z with true
      by (symmetry; apply Z.ltb_lt; exact Hwindow).
    unfold Part000.updateToAcm, acm_ImportCertificate.
    unfold mbind, Go_bind, bind, ret, alloc, emit. cbn [fst snd].
    match goal with
    | |- context [CallImportCertificate ?i] => exists i
    end.
    unfold importedAfter.
    destruct (env_ImportCertificate env _); cbn; split; reflexivity.
Qed.


Lemma appends_ret {A : Type} (x : A) : appends (ret x).
Proof. intros s. exists []. simpl. rewrite app_nil_r. reflexivity. Qed.

Lemma appends_panic {A : Type} (msg : string) : appends (@panic A msg).
Proof. intros s. exists []. simpl. rewrite app_nil_r. reflexivity. Qed.

Lemma appends_emit (c : Call) (err : option error) : appends (emit c err).
Proof. intros s. exists [mkEvent c err]. reflexivity. Qed.

Lemma appends_alloc {A : Type} (v : A) : appends (alloc v).
Proof. intros s. exists []. simpl. rewrite app_nil_r. reflexivity. Qed.

Lemma appends_deref {A : Type} (p : ptr A) : appends (deref p).
Proof. destruct p; [apply appends_ret | apply appends_panic]. Qed.

Lemma appends_bind {A B : Type} (m : Go A) (k : A -> Go B) :
  appends m -> (forall x, appends (k x)) -> appends (m ≫= k).
Proof.
  intros Hm Hk s. unfold mbind, Go_bind, bind.
  destruct (Hm s) as [evs1 Hev1].
  destruct (m s) as [[x|msg] s1]; simpl in *.
  - destruct (Hk x s1) as [evs2 Hev2].
    exists (evs1 ++ evs2). rewrite Hev2, Hev1, app_assoc. reflexivity.
  - exists evs1. exact Hev1.
Qed.

Lemma appends_findSecretByDomain (env : Env) (domainName : string) :
  appends (findSecretByDomain env domainName).
Proof.
  intros s.
  destruct (findSecretByDomain env domainName s) as [out s'] eqn:Hrun.
  apply findSecretByDomain_fetches in Hrun as (evs & Hev & _).
  exists evs. exact Hev.
Qed.

Lemma appends_Get (env : Env) (key : NamespacedName) : appends (r_Get env key).
Proof.
  unfold r_Get. destruct (env_Get env key);
    (apply appends_bind; [apply appends_emit | intros; apply appends_ret]).
Qed.

Ltac prove_appends :=
  repeat first
    [ apply appends_ret | apply appends_panic | apply appends_emit
    | apply appends_alloc | apply appends_deref
    | apply appends_findSecretByDomain | apply appends_Get
    | apply appends_bind; [|intros ?]
    | match goal with
      | |- appends (match ?x with _ => _ end) => destruct x
      | |- appends (if ?b then _ else _) => destruct b
      end
    | progress unfold Part000.aboutToExpire, Part000.updateToAcm,
        Part000.importToAcm, SecretController.expired,
        SecretController.updateToAcm, SecretController.importToAcm,
        acm_ImportCertificate, time_Now ].

Lemma appends_after {A : Type} (m : Go A) (s s1 : State) (ev : Event) :
  events s1 = events s ++ [ev] ->
  appends m ->
  exists evs, events (snd (m s1)) = events s ++ ev :: evs.
Proof.
  intros Hev Hm. destruct (Hm s1) as [evs Hevs].
  exists evs. rewrite Hevs, Hev, <- app_assoc. reflexivity.
Qed.

(** C10. In both variants, the first call of every run of Reconcile is the
    construction of the ACM client, whatever the secret (fetched only
    afterwards) turns out to be.  When the construction fails, Reconcile
    returns that error with the zero result (no requeue interval), having
    made no other call: the secret is not fetched and the eligibility filter
    is not reached, so the reconciliation of a deleted or ineligible secret
    ends in an error too. *)
Theorem Reconcile_builds_client_first
    (env : Env) (req : NamespacedName) (s : State) :
  (exists evs,
      events (snd (Part000.Reconcile env req s))
      = events s ++ mkEvent CallNewACMClient (env_NewACMClient env) :: evs) /\
  (exists evs,
      events (snd (SecretController.Reconcile env req s))
      = events s ++ mkEvent CallNewACMClient (env_NewACMClient env) :: evs) /\
  (forall e,
      env_NewACMClient env = Some e ->
      let failed :=
        (Returns (ctrl.zero, Some e),
         mkState (next_addr s)
                 (events s ++ [mkEvent CallNewACMClient (Some e)])) in
      Part000.Reconcile env req s = failed /\
      SecretController.Reconcile env req s = failed).
Proof.
  split; [|split].
  - unfold Part000.Reconcile.
    rewrite (run_bind _ _ _ _ _ (run_NewACMClient env s)).
    cbv beta iota zeta.
    apply appends_after; [reflexivity|]. prove_appends.
  - unfold SecretController.Reconcile.
    rewrite (run_bind _ _ _ _ _ (run_NewACMClient env s)).
    cbv beta iota zeta.
    apply appends_after; [reflexivity|]. prove_appends.
  - intros e Hfail failed. subst failed.
    unfold Part000.Reconcile, SecretController.Reconcile.
    rewrite !(run_bind _ _ _ _ _ (run_NewACMClient env s)).
    rewrite Hfail. split; reflexivity.
Qed.

End ReconcilerFacts.

(** ** The properties on concrete runs *)


Section SampleRuns.

#[local] Existing Instance sampleCodec.

Lemma secret_Eligible : Eligible Sample.secret "example.com".
Proof. repeat split; try reflexivity. discriminate. Qed.

Lemma splitCertificateChain_leaf_and_chain_witness :
  splitCertificateChain (codec := sampleCodec) Sample.bundle =
    (pem.EncodeToMemory (Runs.certBlock ["a"; "b"]%byte),
     concat (map pem.EncodeToMemory [Runs.certBlock ["c"]%byte]),
     None).
Proof.
  apply (splitCertificateChain_leaf_and_chain (codec := sampleCodec)).
  vm_compute. reflexivity.
Defined.

Lemma splitCertificateChain_no_certificate_witness :
  splitCertificateChain (codec := sampleCodec) ["K"; "k"; x0a]%byte =
    ([], [], Some (Errorf "no certificates found in PEM data")) /\
  splitCertificateChain (codec := sampleCodec) [] =
    ([], [], Some (Errorf "no certificates found in PEM data")).
Proof.
  split; apply (splitCertificateChain_no_certificate (codec := sampleCodec));
    vm_compute; reflexivity.
Defined.

Lemma findSecretByDomain_misses_primary_domain_witness :
  fst (findSecretByDomain Sample.worldWithoutSANs "example.com" initial)
  = Returns (None, None).
Proof.
  apply (findSecretByDomain_misses_primary_domain
           Sample.worldWithoutSANs "example.com" (Some Sample.arn)
           (mkDetailReply (Some Sample.arn) (Some "example.com") [] (Some 0%Z)));
    reflexivity.
Defined.

Lemma findSecretByDomain_failed_fetch_is_error_witness :
  exists e c,
    fst (findSecretByDomain Sample.brokenWorld "example.com" initial)
    = Returns (None, Some e) /\
    In (mkEvent c (Some e))
       (events (snd (findSecretByDomain Sample.brokenWorld "example.com" initial))).
Proof.
  destruct (findSecretByDomain_failed_fetch_is_error
              Sample.brokenWorld "example.com" initial)
    as (evs & Hev & _ & Hfailed & _).
  simpl events in Hev at 2. simpl app in Hev.
  destruct Hfailed as (e & c & Hout & Hin).
  - exists (mkEvent CallListCertificates (Some (Errorf "ThrottlingException"))).
    split; [|discriminate].
    rewrite <- Hev. vm_compute. right. right. left. reflexivity.
  - exists e, c. split; [exact Hout|]. rewrite Hev. exact Hin.
Defined.

Lemma Reconcile_skips_ineligible_witness :
  Part000.Reconcile (codec := sampleCodec) Runs.plainWorld Sample.req initial
  = (Returns (ctrl.zero, None), fetched Sample.req initial).
Proof.
  apply (Reconcile_skips_ineligible (codec := sampleCodec)
           Runs.plainWorld Sample.req Runs.plainSecret initial).
  - reflexivity.
  - reflexivity.
  - left. vm_compute. discriminate.
Defined.

(** The locate step of [world now notAfter], run after the fetch. *)
Lemma world_located (now : time.Time) (notAfter : option time.Time) :
  findSecretByDomain (Sample.world now notAfter) "example.com"
                     (fetched Sample.req initial)
  = (Returns (Some (Runs.existing notAfter), None),
     snd (findSecretByDomain (Sample.world now notAfter) "example.com"
                             (fetched Sample.req initial))).
Proof. destruct notAfter; reflexivity. Qed.

Lemma bundle_split :
  splitCertificateChain (index_bytes (corev1.Data Sample.secret) corev1.TLSCertKey)
  = (Runs.leaf, Runs.chain, None).
Proof. vm_compute. reflexivity. Qed.

Lemma Reconcile_keeps_record_without_expiry_witness :
  Part000.Reconcile (Sample.world 0%Z None) Sample.req initial
  = (Returns (ctrl.after (24 * time.Hour)%Z, None),
     snd (findSecretByDomain (Sample.world 0%Z None) "example.com"
                             (fetched Sample.req initial))).
Proof.
  apply (Reconcile_keeps_record_without_expiry
           (Sample.world 0%Z None) Sample.req Sample.secret "example.com"
           (Runs.existing None) initial _ Runs.leaf Runs.chain).
  - reflexivity.
  - reflexivity.
  - exact secret_Eligible.
  - exact (world_located 0%Z None).
  - exact bundle_split.
  - reflexivity.
Defined.

(** One hour before the window closes: the record is replaced. *)
Lemma Reconcile_decision_witness :
  exists input,
    importedAfter
      (Sample.world 0%Z (Some (71 * time.Hour)%Z))
      (snd (findSecretByDomain (Sample.world 0%Z (Some (71 * time.Hour)%Z))
                               "example.com" (fetched Sample.req initial)))
      (snd (Part000.Reconcile (Sample.world 0%Z (Some (71 * time.Hour)%Z))
                              Sample.req initial))
      input /\
    acm.CertificateArn input = Some (mkCell 2%positive Sample.arn).
Proof.
  destruct (Reconcile_decision
              (Sample.world 0%Z (Some (71 * time.Hour)%Z)) Sample.req
              Sample.secret "example.com"
              (Some (Runs.existing (Some (71 * time.Hour)%Z)))
              initial _ Runs.leaf Runs.chain
              eq_refl eq_refl secret_Eligible
              (world_located 0%Z (Some (71 * time.Hour)%Z)) bundle_split)
    as (_ & Hreplace & _).
  destruct (Hreplace (Runs.existing (Some (71 * time.Hour)%Z))
                     (71 * time.Hour)%Z eq_refl eq_refl)
    as (input & Himported & Harn & _).
  - vm_compute. reflexivity.
  - exists input. split; [exact Himported | exact Harn].
Defined.


(** At an expiry of exactly now + 72 hours the code keeps the record:
    [Before] is strict. *)
Lemma replaces_at_or_before_window_fails : ~ replaces_at_or_before_window.
Proof.
  intros Hclaim.
  destruct (Hclaim sampleCodec
              (Sample.world 0%Z (Some (72 * time.Hour)%Z)) Sample.req
              Sample.secret "example.com"
              (Runs.existing (Some (72 * time.Hour)%Z)) (72 * time.Hour)%Z
              initial _ Runs.leaf Runs.chain
              eq_refl eq_refl secret_Eligible
              (world_located 0%Z (Some (72 * time.Hour)%Z)) bundle_split
              eq_refl)
    as (input & Himported & _).
  - vm_compute. discriminate.
  - unfold importedAfter in Himported. vm_compute in Himported.
    discriminate Himported.
Qed.

Lemma variants_disagree_inside_window_witness :
  SecretController.Reconcile (Sample.world 0%Z (Some (10 * time.Hour)%Z))
                             Sample.req initial
  = (Returns (ctrl.zero, None),
     snd (findSecretByDomain (Sample.world 0%Z (Some (10 * time.Hour)%Z))
                             "example.com" (fetched Sample.req initial))) /\
  exists input,
    importedAfter
      (Sample.world 0%Z (Some (10 * time.Hour)%Z))
      (snd (findSecretByDomain (Sample.world 0%Z (Some (10 * time.Hour)%Z))
                               "example.com" (fetched Sample.req initial)))
      (snd (Part000.Reconcile (Sample.world 0%Z (Some (10 * time.Hour)%Z))
                              Sample.req initial))
      input /\
    acm.CertificateArn input = Some (mkCell 2%positive Sample.arn).
Proof.
  destruct (variants_disagree_inside_window
              (Sample.world 0%Z (Some (10 * time.Hour)%Z)) Sample.req
              Sample.secret "example.com"
              (Runs.existing (Some (10 * time.Hour)%Z))
              Sample.arn (10 * time.Hour)%Z
              initial _ Runs.leaf Runs.chain
              eq_refl eq_refl secret_Eligible
              (world_located 0%Z (Some (10 * time.Hour)%Z)) bundle_split
              eq_refl eq_refl)
    as (_ & _ & Hold & Hnew).
  - vm_compute. split; [discriminate | reflexivity].
  - split; [exact Hold | exact Hnew].
Defined.

Lemma Reconcile_requeue_witness :
  Part000.Reconcile Sample.brokenWorld Sample.req initial
  = (Returns (ctrl.after (5 * time.Minute)%Z,
              Some (Errorf "ThrottlingException")),
     snd (findSecretByDomain Sample.brokenWorld "example.com"
                             (fetched Sample.req initial))) /\
  Part000.Reconcile Sample.emptyWorld Sample.req initial
  = (Returns (ctrl.after (24 * time.Hour)%Z, None),
     snd (Part000.Reconcile Sample.emptyWorld Sample.req initial)).
Proof.
  destruct (Reconcile_requeue Sample.brokenWorld Sample.req Sample.secret
              "example.com" initial eq_refl eq_refl secret_Eligible)
    as (Hlocate & _ & _).
  destruct (Reconcile_requeue Sample.emptyWorld Sample.req Sample.secret
              "example.com" initial eq_refl eq_refl secret_Eligible)
    as (_ & _ & Hupsert).
  split.
  - apply (Hlocate None (Errorf "ThrottlingException")). reflexivity.
  - destruct (Hupsert None
                (snd (findSecretByDomain Sample.emptyWorld "example.com"
                                         (fetched Sample.req initial))))
      as [Hkept | (input & Himported & Hresult)].
    + reflexivity.
    + vm_compute. reflexivity.
    + vm_compute in Hkept. discriminate Hkept.
    + reflexivity.
Defined.

Lemma Reconcile_builds_client_first_witness :
  Part000.Reconcile Sample.noClientWorld Sample.req initial
  = (Returns (ctrl.zero, Some (Errorf "failed to load AWS config")),
     mkState 1%positive
             [mkEvent CallNewACMClient
                      (Some (Errorf "failed to load AWS config"))]) /\
  SecretController.Reconcile Sample.noClientWorld Sample.req initial
  = (Returns (ctrl.zero, Some (Errorf "failed to load AWS config")),
     mkState 1%positive
             [mkEvent CallNewACMClient
                      (Some (Errorf "failed to load AWS config"))]).
Proof.
  destruct (Reconcile_builds_client_first Sample.noClientWorld Sample.req initial)
    as (_ & _ & Hfail).
  apply (Hfail (Errorf "failed to load AWS config")). reflexivity.
Defined.

End SampleRuns.

(** * Further properties of the code *)

(** ** Reconcile: the secret cannot be fetched, or carries no certificate *)

Section ReconcilerEdges.

Context {codec : pem.Codec}.

(** X1. When the client is built and fetching the secret fails, both variants
    return the zero result after exactly two calls (the client construction and
    the Get): with a nil error when the failure is a not-found error (the
    secret was deleted), with the Get error otherwise.  The certificate service
    is not called. *)
Theorem Reconcile_secret_not_fetched
    (env : Env) (req : NamespacedName) (err : error) (s : State) :
  env_NewACMClient env = None ->
  env_Get env req = GetFailed err ->
  let outcome :=
    (Returns (ctrl.zero, if IsNotFound err then None else Some err),
     mkState (next_addr s)
             ((events s ++ [mkEvent CallNewACMClient None])
                ++ [mkEvent (CallGet req) (Some err)])) in
  Part000.Reconcile env req s = outcome /\
  SecretController.Reconcile env req s = outcome.
Proof.
  intros Hclient Hget outcome. subst outcome.
  unfold Part000.Reconcile, SecretController.Reconcile.
  rewrite !(run_bind _ _ _ _ _ (run_NewACMClient env s)).
  rewrite Hclient. cbv beta iota zeta.
  rewrite !(run_bind _ _ _ _ _ (run_Get_failed env req err _ Hget)).
  cbv beta iota zeta. simpl next_addr. simpl events.
  destruct (IsNotFound err); split; reflexivity.
Qed.

(** Decoding stops at once on an empty input: a block would have to consume
    input that is not there. *)
Lemma splitCertificateChain_empty :
  splitCertificateChain [] =
    ([], [], Some (Errorf "no certificates found in PEM data")).
Proof.
  unfold splitCertificateChain. rewrite decodeAll_done; [reflexivity|].
  destruct (pem.Decode []) as [[b rest]|] eqn:Hdec; [|reflexivity].
  apply pem.Decode_consumes in Hdec. simpl in Hdec. lia.
Qed.

(** X2. An eligible secret whose data has no "tls.crt" entry (or an empty
    one): whatever the locate step found, part_000 returns the error
    "no certificates found in PEM data" with a requeue after 5 minutes, and
    imports nothing.  This holds for every codec. *)
Theorem Reconcile_without_certificate_payload
    (env : Env) (req : NamespacedName) (secret : corev1.Secret)
    (domainName : string) (located : option types.CertificateDetail)
    (s s2 : State) :
  env_NewACMClient env = None ->
  env_Get env req = GetFound secret ->
  Eligible secret domainName ->
  index_bytes (corev1.Data secret) corev1.TLSCertKey = [] ->
  findSecretByDomain env domainName (fetched req s)
    = (Returns (located, None), s2) ->
  Part000.Reconcile env req s
    = (Returns (ctrl.after (5 * time.Minute)%Z,
                Some (Errorf "no certificates found in PEM data")), s2) /\
  noImportSince s s2.
Proof.
  intros Hclient Hget Helig Hdata Hloc.
  split; [|eapply located_no_import; exact Hloc].
  unfold Part000.Reconcile.
  reconcile_fetch env req s Hclient Hget.
  reconcile_filter Helig.
  rewrite (run_bind _ _ _ _ _ Hloc). cbv beta iota zeta.
  rewrite Hdata, splitCertificateChain_empty. reflexivity.
Qed.

(** ** secret_controller.go: the decision, and the log line *)

(** X3. secret_controller.go, after a successful locate.  A located record
    (with an ARN and an expiry) whose expiry is at or after now is kept: no
    import.  One whose expiry is strictly before now is replaced by one import
    that carries the record's ARN string, the whole "tls.crt" payload as the
    certificate and no chain.  With no located record one import without ARN
    is issued, again with the whole payload and no chain.  The result is the
    zero result with the import's error. *)
Theorem SecretController_decision
    (env : Env) (req : NamespacedName) (secret : corev1.Secret)
    (domainName : string) (existingCertificate : option types.CertificateDetail)
    (s s2 : State) :
  env_NewACMClient env = None ->
  env_Get env req = GetFound secret ->
  Eligible secret domainName ->
  findSecretByDomain env domainName (fetched req s)
    = (Returns (existingCertificate, None), s2) ->
  let run := SecretController.Reconcile env req s in
  let cert := index_bytes (corev1.Data secret) corev1.TLSCertKey in
  let key := index_bytes (corev1.Data secret) corev1.TLSPrivateKeyKey in
  (forall existing arn notAfter,
      existingCertificate = Some existing ->
      pointee (types.CertificateArn existing) = Some arn ->
      pointee (types.NotAfter existing) = Some notAfter ->
      (env_Now env <= notAfter)%Z ->
      run = (Returns (ctrl.zero, None), s2)) /\
  (forall existing arn notAfter,
      existingCertificate = Some existing ->
      pointee (types.CertificateArn existing) = Some arn ->
      pointee (types.NotAfter existing) = Some notAfter ->
      (notAfter < env_Now env)%Z ->
      exists input,
        importedAfter env s2 (snd run) input /\
        fst run = Returns (ctrl.zero, env_ImportCertificate env input) /\
        pointee (acm.CertificateArn input) = Some arn /\
        acm.Certificate input = cert /\
        acm.CertificateChain input = [] /\
        acm.PrivateKey input = key) /\
  (existingCertificate = None ->
      exists input,
        importedAfter env s2 (snd run) input /\
        fst run = Returns (ctrl.zero, env_ImportCertificate env input) /\
        acm.CertificateArn input = None /\
        acm.Certificate input = cert /\
        acm.CertificateChain input = [] /\
        acm.PrivateKey input = key).
Proof.
  intros Hclient Hget Helig Hloc run cert key. subst run cert key.
  unfold SecretController.Reconcile.
  reconcile_fetch env req s Hclient Hget.
  reconcile_filter Helig.
  rewrite (run_bind _ _ _ _ _ Hloc). cbv beta iota zeta.
  split; [|split].
  - intros existing arn notAfter -> Harn HnotAfter Hnow.
    destruct (types.CertificateArn existing) as [cArn|] eqn:HcArn;
      [|discriminate].
    unfold SecretController.expired.
    destruct (types.NotAfter existing) as [c|]; [|discriminate].
    injection HnotAfter as HnotAfter.
    unfold deref, time_Now, time.Before.
    unfold mbind, Go_bind, bind, ret. cbv beta iota.
    rewrite HnotAfter.
    replace (notAfter <? env_Now env)%Z with false
      by (symmetry; apply Z.ltb_ge; exact Hnow).
    reflexivity.
  - intros existing arn notAfter -> Harn HnotAfter Hpast.
    destruct (types.CertificateArn existing) as [cArn|] eqn:HcArn;
      [|discriminate].
    injection Harn as Harn.
    unfold SecretController.expired.
    destruct (types.NotAfter existing) as [c|]; [|discriminate].
    injection HnotAfter as HnotAfter.
    unfold deref, time_Now, time.Before.
    unfold mbind, Go_bind, bind, ret. cbv beta iota.
    rewrite HnotAfter.
    replace (notAfter <? env_Now env)%Z with true
      by (symmetry; apply Z.ltb_lt; exact Hpast).
    unfold SecretController.updateToAcm, acm_ImportCertificate.
    unfold mbind, Go_bind, bind, ret, alloc, emit. cbn [fst snd].
    match goal with
    | |- context [CallImportCertificate ?i] => exists i
    end.
    unfold importedAfter.
    destruct (env_ImportCertificate env _); cbn; rewrite Harn;
      repeat split; reflexivity.
  - intros ->.
    unfold SecretController.importToAcm, acm_ImportCertificate.
    unfold mbind, Go_bind, bind, ret, alloc, emit. cbn [fst snd].
    match goal with
    | |- context [CallImportCertificate ?i] => exists i
    end.
    unfold importedAfter.
    destruct (env_ImportCertificate env _); cbn; repeat split; reflexivity.
Qed.

(** X4. secret_controller.go dereferences the ARN and the expiry of a located
    record in the log call of line 82, before it tests them for nil: when
    either pointer is nil the run panics there, right after the locate step,
    and imports nothing.  (part_000 reads them through aws.ToString and
    aws.ToTime and does not panic.) *)
Theorem SecretController_panics_on_nil_field
    (env : Env) (req : NamespacedName) (secret : corev1.Secret)
    (domainName : string) (existing : types.CertificateDetail)
    (s s2 : State) :
  env_NewACMClient env = None ->
  env_Get env req = GetFound secret ->
  Eligible secret domainName ->
  findSecretByDomain env domainName (fetched req s)
    = (Returns (Some existing, None), s2) ->
  types.CertificateArn existing = None \/ types.NotAfter existing = None ->
  SecretController.Reconcile env req s
    = (Panics "invalid memory address or nil pointer dereference", s2) /\
  noImportSince s s2.
Proof.
  intros Hclient Hget Helig Hloc Hnil.
  split; [|eapply located_no_import; exact Hloc].
  unfold SecretController.Reconcile.
  reconcile_fetch env req s Hclient Hget.
  reconcile_filter Helig.
  rewrite (run_bind _ _ _ _ _ Hloc). cbv beta iota zeta.
  destruct (types.CertificateArn existing) as [cArn|].
  - destruct Hnil as [Hnil | Hnil]; [discriminate|]. rewrite Hnil.
    reflexivity.
  - reflexivity.
Qed.

End ReconcilerEdges.

(** ** What every run returns *)

Lemma returning_ret {A : Type} (P : A -> Prop) (x : A) :
  P x -> returning P (ret x).
Proof. intros HP s r s' [= <- _]. exact HP. Qed.

Lemma returning_panic {A : Type} (P : A -> Prop) (msg : string) :
  returning P (panic msg).
Proof. intros s r s'. discriminate. Qed.

Lemma returning_bind {A B : Type} (P : B -> Prop) (m : Go A) (k : A -> Go B) :
  (forall x, returning P (k x)) -> returning P (m ≫= k).
Proof.
  intros Hk s r s'. unfold mbind, Go_bind, bind.
  destruct (m s) as [[x|msg] s1]; [apply Hk | discriminate].
Qed.

Ltac prove_returning :=
  repeat first
    [ apply returning_panic
    | apply returning_bind; intros ?
    | match goal with
      | |- returning _ (match ?x with _ => _ end) => destruct x
      | |- returning _ (if ?b then _ else _) => destruct b
      end ].

Lemma safe_ret {A : Type} (x : A) : safe (ret x).
Proof. intros s. exists x, s. reflexivity. Qed.

Lemma safe_emit (c : Call) (err : option error) : safe (emit c err).
Proof. intros s. eexists _, _. reflexivity. Qed.

Lemma safe_alloc {A : Type} (v : A) : safe (alloc v).
Proof. intros s. eexists _, _. reflexivity. Qed.

Lemma safe_bind {A B : Type} (m : Go A) (k : A -> Go B) :
  safe m -> (forall x, safe (k x)) -> safe (m ≫= k).
Proof.
  intros Hm Hk s. destruct (Hm s) as (x & s1 & Hrun).
  rewrite (run_bind _ _ _ _ _ Hrun). apply Hk.
Qed.

Lemma safe_Get (env : Env) (key : NamespacedName) : safe (r_Get env key).
Proof.
  unfold r_Get. destruct (env_Get env key);
    (apply safe_bind; [apply safe_emit | intros; apply safe_ret]).
Qed.

(** When outputs always carry a certificate, a DescribeCertificate call
    returns a record or an error. *)
Lemma DescribeCertificate_record_or_error (env : Env) (arn : option string)
    (s : State) :
  alwaysCertificate env ->
  exists cert err s',
    acm_DescribeCertificate env arn s = (Returns (cert, err), s') /\
    (err = None -> cert <> None).
Proof.
  intros Halways. unfold acm_DescribeCertificate.
  specialize (Halways arn).
  destruct (env_DescribeCertificate env arn) as [e | [reply|]].
  - eexists _, _, _. split; [reflexivity | discriminate].
  - destruct reply as [rArn rDomain rSANs rNotAfter].
    unfold mbind, Go_bind, bind, alloc_field, emit, alloc, ret. simpl.
    destruct rArn, rDomain, rNotAfter; simpl;
      (eexists _, _, _; split; [reflexivity | discriminate]).
  - congruence.
Qed.

Lemma safe_rangeSummaries (env : Env) (p : ptr string) (domainName : string)
    (summaries : list (option string)) :
  alwaysCertificate env -> safe (rangeSummaries env p domainName summaries).
Proof.
  intros Halways.
  induction summaries as [|certSummary summaries IH]; intros s.
  - apply safe_ret.
  - cbn [rangeSummaries].
    destruct (DescribeCertificate_record_or_error env certSummary s Halways)
      as (cert & err & s1 & Hrun & Hcert).
    rewrite (run_bind _ _ _ _ _ Hrun). cbv beta iota.
    destruct err as [e|]; [apply safe_ret|].
    destruct cert as [d|]; [|exfalso; apply Hcert; reflexivity].
    destruct (ptr_eqb _ _); [apply safe_ret|].
    destruct (matchesSAN _ _); [apply safe_ret | apply IH].
Qed.

Lemma safe_rangePages (env : Env) (p : ptr string) (domainName : string)
    (listing : Listing) :
  alwaysCertificate env -> safe (rangePages env p domainName listing).
Proof.
  intros Halways.
  induction listing as [err | summaries | summaries listing' IH];
    cbn [rangePages].
  - apply safe_bind; [apply safe_emit | intros; apply safe_ret].
  - apply safe_bind; [apply safe_emit | intros _].
    apply safe_bind; [apply safe_rangeSummaries, Halways | intros [r|]];
      apply safe_ret.
  - apply safe_bind; [apply safe_emit | intros _].
    apply safe_bind; [apply safe_rangeSummaries, Halways | intros [r|]];
      [apply safe_ret | exact IH].
Qed.

Lemma safe_findSecretByDomain (env : Env) (domainName : string) :
  alwaysCertificate env -> safe (findSecretByDomain env domainName).
Proof.
  intros Halways. unfold findSecretByDomain.
  apply safe_bind; [apply safe_alloc | intros p].
  apply safe_rangePages, Halways.
Qed.

Section Results.

Context {codec : pem.Codec}.

(** X5. secret_controller.go never asks for a requeue: whatever the
    environment answers, when Reconcile returns, its result is the zero
    [ctrl.Result], also when it returns an error. *)
Theorem SecretController_never_requeues
    (env : Env) (req : NamespacedName) (s s' : State)
    (result : ctrl.Result) (err : option error) :
  SecretController.Reconcile env req s = (Returns (result, err), s') ->
  result = ctrl.zero.
Proof.
  intros Hrun.
  assert (Hall : returning (fun r : ctrl.Result * option error =>
                              fst r = ctrl.zero)
                           (SecretController.Reconcile env req)).
  { unfold SecretController.Reconcile. prove_returning;
      apply returning_ret; reflexivity. }
  exact (Hall _ _ _ Hrun).
Qed.

(** X6. part_000 pairs intervals and errors consistently: whenever Reconcile
    returns, a nil error comes with the zero result or a requeue after 24
    hours, and an error comes with the zero result or a requeue after
    5 minutes.  It never returns the 24-hour interval with an error, nor the
    5-minute interval without one. *)
Theorem Reconcile_interval_matches_error
    (env : Env) (req : NamespacedName) (s s' : State)
    (result : ctrl.Result) (err : option error) :
  Part000.Reconcile env req s = (Returns (result, err), s') ->
  match err with
  | None => result = ctrl.zero \/ result = ctrl.after (24 * time.Hour)%Z
  | Some _ => result = ctrl.zero \/ result = ctrl.after (5 * time.Minute)%Z
  end.
Proof.
  intros Hrun.
  assert (Hall : returning
            (fun r : ctrl.Result * option error =>
               match snd r with
               | None => fst r = ctrl.zero \/
                         fst r = ctrl.after (24 * time.Hour)%Z
               | Some _ => fst r = ctrl.zero \/
                           fst r = ctrl.after (5 * time.Minute)%Z
               end)
            (Part000.Reconcile env req)).
  { unfold Part000.Reconcile. prove_returning;
      apply returning_ret; simpl; auto. }
  exact (Hall _ _ _ Hrun).
Qed.

(** X7. part_000 does not panic as long as every successful
    DescribeCertificate output carries a certificate: for every such
    environment, request and starting state, Reconcile returns a result. *)
Theorem Reconcile_returns
    (env : Env) (req : NamespacedName) (s : State) :
  alwaysCertificate env ->
  exists result err s',
    Part000.Reconcile env req s = (Returns (result, err), s').
Proof.
  intros Halways.
  assert (Hsafe : safe (Part000.Reconcile env req)).
  { unfold Part000.Reconcile, Part000.aboutToExpire, Part000.updateToAcm,
      Part000.importToAcm, acm_ImportCertificate, awsclient.NewACMClient,
      time_Now.
    repeat first
      [ apply safe_ret | apply safe_emit | apply safe_alloc | apply safe_Get
      | apply safe_findSecretByDomain; exact Halways
      | apply safe_bind; [|intros ?]
      | match goal with
        | |- safe (match ?x with _ => _ end) => destruct x
        | |- safe (if ?b then _ else _) => destruct b
        end ]. }
  destruct (Hsafe s) as ([result err] & s' & Hrun).
  exists result, err, s'. exact Hrun.
Qed.

End Results.

(** ** The calls of a run *)

Lemma newEvents_app (s s' : State) (evs : list Event) :
  events s' = events s ++ evs -> newEvents s s' = evs.
Proof. intros Hev. unfold newEvents. rewrite Hev. apply drop_app_length. Qed.

Lemma Shaped_quiet (env : Env) (s s' : State)
    (Q : acm.ImportCertificateInput -> Prop) (evs : list Event) :
  events s' = events s ++ evs ->
  Forall (fun ev => isImport ev = false) evs ->
  Shaped env s s' Q.
Proof.
  intros Hev Hquiet. exists evs, None.
  split; [exact Hev|]. split; [exact Hquiet | discriminate].
Qed.

Lemma Shaped_import (env : Env) (s s' : State)
    (Q : acm.ImportCertificateInput -> Prop) (before : list Event)
    (input : acm.ImportCertificateInput) :
  events s' = (events s ++ before)
                ++ [mkEvent (CallImportCertificate input)
                            (env_ImportCertificate env input)] ->
  Forall (fun ev => isImport ev = false) before ->
  Forall succeeded before ->
  Q input ->
  Shaped env s s' Q.
Proof.
  intros Hev Hquiet Hok HQ.
  exists (before ++ [mkEvent (CallImportCertificate input)
                             (env_ImportCertificate env input)]), (Some input).
  split; [rewrite Hev, <- app_assoc; reflexivity|]. split.
  - exists before. repeat split; assumption.
  - intros input' [= <-]. exact HQ.
Qed.

Lemma catalog_fetch_not_import (evs : list Event) :
  Forall (fun ev => isCatalogFetch ev = true) evs ->
  Forall (fun ev => isImport ev = false) evs.
Proof.
  apply List.Forall_impl. intros [c err]. unfold isCatalogFetch, isImport.
  simpl. destruct c; congruence.
Qed.

(** The calls from the start of a run to the end of a locate step that
    returned without error. *)
Lemma located_calls (env : Env) (req : NamespacedName) (domainName : string)
    (s s2 : State) (located : option types.CertificateDetail) :
  findSecretByDomain env domainName (fetched req s)
    = (Returns (located, None), s2) ->
  exists before,
    events s2 = events s ++ before /\
    Forall (fun ev => isImport ev = false) before /\
    Forall succeeded before.
Proof.
  intros Hloc.
  apply findSecretByDomain_fetches in Hloc as (evs & Hev & [Hcalls Hok] & _).
  simpl in Hok.
  exists ([mkEvent CallNewACMClient None; mkEvent (CallGet req) None] ++ evs).
  split; [|split].
  - rewrite Hev. unfold fetched. simpl. rewrite <- !app_assoc. reflexivity.
  - apply Forall_app. split; [repeat constructor|].
    apply catalog_fetch_not_import, Hcalls.
  - apply Forall_app. split; [repeat constructor | exact Hok].
Qed.

Lemma run_bind_assoc {A B C : Type} (m : Go A) (k1 : A -> Go B)
    (k2 : B -> Go C) (s : State) :
  ((m ≫= k1) ≫= k2) s = (m ≫= (fun x => k1 x ≫= k2)) s.
Proof.
  unfold mbind, Go_bind, bind. destruct (m s) as [[x|msg] s1]; reflexivity.
Qed.

Ltac run_allocs :=
  repeat (rewrite run_bind_assoc;
          rewrite (run_bind _ _ _ _ _ (run_alloc _ _));
          cbv beta iota zeta);
  simpl next_addr; simpl events.

Section Shapes.

Context {codec : pem.Codec}.

(** The condition of line 89 is evaluated without a call and without a
    panic. *)
Lemma run_aboutToExpire (env : Env) (existing : types.CertificateDetail)
    (s : State) :
  exists expiring, Part000.aboutToExpire env existing s = (Returns expiring, s).
Proof.
  unfold Part000.aboutToExpire.
  destruct (types.NotAfter existing); eexists; reflexivity.
Qed.

Ltac quiet_leaf evs :=
  apply (Shaped_quiet _ _ _ _ evs);
  [ simpl; rewrite <- ?app_assoc; reflexivity | repeat constructor ].

Lemma Part000_Shaped (env : Env) (req : NamespacedName) (s : State) :
  Shaped env s (snd (Part000.Reconcile env req s)) (Part000Import env req).
Proof.
  unfold Part000.Reconcile.
  rewrite (run_bind _ _ _ _ _ (run_NewACMClient env s)).
  destruct (env_NewACMClient env) as [e|] eqn:Hclient; cbv beta iota zeta.
  { quiet_leaf [mkEvent CallNewACMClient (Some e)]. }
  destruct (env_Get env req) as [secret|e] eqn:Hget.
  2:{ rewrite (run_bind _ _ _ _ _ (run_Get_failed env req e _ Hget)).
      cbv beta iota zeta.
      destruct (IsNotFound e);
        quiet_leaf [mkEvent CallNewACMClient None; mkEvent (CallGet req) (Some e)]. }
  rewrite (run_bind _ _ _ _ _ (run_Get_found env req _ _ Hget)).
  cbv beta iota zeta. fold (fetched req s).
  destruct (negb (String.eqb (index_string _ _) "true")).
  { quiet_leaf [mkEvent CallNewACMClient None; mkEvent (CallGet req) None]. }
  destruct (negb (String.eqb (corev1.Type_ secret) _)).
  { quiet_leaf [mkEvent CallNewACMClient None; mkEvent (CallGet req) None]. }
  destruct (index_ok _ _) as [domainName exists_].
  destruct (negb exists_ || String.eqb domainName EmptyString).
  { quiet_leaf [mkEvent CallNewACMClient None; mkEvent (CallGet req) None]. }
  destruct (findSecretByDomain env domainName (fetched req s))
    as [[[located [e|]]|msg] s2] eqn:Hloc.
  - rewrite (run_bind _ _ _ _ _ Hloc). cbv beta iota zeta.
    destruct (located_no_import _ _ _ _ _ _ Hloc) as (evs & Hev & Hquiet).
    apply (Shaped_quiet _ _ _ _ evs); assumption.
  - rewrite (run_bind _ _ _ _ _ Hloc). cbv beta iota zeta.
    destruct (located_calls _ _ _ _ _ _ Hloc) as (before & Hev & Hquiet & Hok).
    destruct (splitCertificateChain _) as [[leaf chain] [e|]] eqn:Hsplit;
      cbv beta iota zeta.
    { apply (Shaped_quiet _ _ _ _ before); assumption. }
    assert (Himport : forall arn,
      Shaped env s
        (snd ((err ← acm_ImportCertificate env
                 (acm.mkImportCertificateInput leaf
                    (index_bytes (corev1.Data secret) corev1.TLSPrivateKeyKey)
                    chain arn
                    [types.mkTag
                       (Some (mkCell (next_addr s2) "kubernetes-secrets"))
                       (Some (mkCell (Pos.succ (next_addr s2))
                                (corev1.Namespace secret +:+ "/"
                                   +:+ corev1.Name secret)))]);
               match err with
               | Some e => ret (ctrl.after (5 * time.Minute)%Z, Some e)
               | None => ret (ctrl.after (24 * time.Hour)%Z, None)
               end)
              (mkState (Pos.succ (Pos.succ (next_addr s2))) (events s2))))
        (Part000Import env req)).
    { intros arn.
      rewrite (run_bind _ _ _ _ _ (run_ImportCertificate _ _ _)).
      match goal with
      | |- context [CallImportCertificate ?i] =>
          apply (Shaped_import _ _ _ _ before i)
      end; try assumption.
      - destruct (env_ImportCertificate env _); simpl; rewrite Hev;
          reflexivity.
      - exists secret. simpl. rewrite Hsplit. repeat split; assumption. }
    destruct located as [existing|].
    + destruct (run_aboutToExpire env existing s2) as [expiring Hexp].
      rewrite (run_bind _ _ _ _ _ Hexp). cbv beta iota zeta.
      destruct expiring.
      * unfold Part000.updateToAcm. run_allocs. apply Himport.
      * apply (Shaped_quiet _ _ _ _ before); assumption.
    + unfold Part000.importToAcm. run_allocs. apply Himport.
  - rewrite (run_bind_panic _ _ _ _ _ Hloc).
    destruct (located_no_import _ _ _ _ _ _ Hloc) as (evs & Hev & Hquiet).
    apply (Shaped_quiet _ _ _ _ evs); assumption.
Qed.

End Shapes.

Lemma run_deref_nil {A B : Type} (k : A -> Go B) (s : State) :
  (deref None ≫= k) s
  = (Panics "invalid memory address or nil pointer dereference", s).
Proof. reflexivity. Qed.

Lemma run_deref_cell {A B : Type} (c : cell A) (k : A -> Go B) (s : State) :
  (deref (Some c) ≫= k) s = k (cell_val c) s.
Proof. reflexivity. Qed.

(** The condition of line 83 is evaluated without a call and without a
    panic. *)
Lemma run_expired (env : Env) (existing : types.CertificateDetail) (s : State) :
  exists isExpired,
    SecretController.expired env existing s = (Returns isExpired, s).
Proof.
  unfold SecretController.expired.
  destruct (types.NotAfter existing); eexists; reflexivity.
Qed.

Lemma SecretController_Shaped (env : Env) (req : NamespacedName) (s : State) :
  Shaped env s (snd (SecretController.Reconcile env req s))
         (SecretControllerImport env req).
Proof.
  unfold SecretController.Reconcile.
  rewrite (run_bind _ _ _ _ _ (run_NewACMClient env s)).
  destruct (env_NewACMClient env) as [e|] eqn:Hclient; cbv beta iota zeta.
  { apply (Shaped_quiet _ _ _ _ [mkEvent CallNewACMClient (Some e)]);
      [reflexivity | repeat constructor]. }
  destruct (env_Get env req) as [secret|e] eqn:Hget.
  2:{ rewrite (run_bind _ _ _ _ _ (run_Get_failed env req e _ Hget)).
      cbv beta iota zeta.
      destruct (IsNotFound e);
        (apply (Shaped_quiet _ _ _ _
                  [mkEvent CallNewACMClient None;
                   mkEvent (CallGet req) (Some e)]);
         [simpl; rewrite <- ?app_assoc; reflexivity | repeat constructor]). }
  rewrite (run_bind _ _ _ _ _ (run_Get_found env req _ _ Hget)).
  cbv beta iota zeta. fold (fetched req s).
  assert (Hskip : Shaped env s (fetched req s) (SecretControllerImport env req)).
  { apply (Shaped_quiet _ _ _ _
             [mkEvent CallNewACMClient None; mkEvent (CallGet req) None]);
      [simpl; rewrite <- ?app_assoc; reflexivity | repeat constructor]. }
  destruct (negb (String.eqb (index_string _ _) "true")); [exact Hskip|].
  destruct (negb (String.eqb (corev1.Type_ secret) _)); [exact Hskip|].
  destruct (index_ok _ _) as [domainName exists_].
  destruct (negb exists_ || String.eqb domainName EmptyString);
    [exact Hskip|].
  clear Hskip.
  destruct (findSecretByDomain env domainName (fetched req s))
    as [[[located [e|]]|msg] s2] eqn:Hloc.
  - rewrite (run_bind _ _ _ _ _ Hloc). cbv beta iota zeta.
    destruct (located_no_import _ _ _ _ _ _ Hloc) as (evs & Hev & Hquiet).
    apply (Shaped_quiet _ _ _ _ evs); assumption.
  - rewrite (run_bind _ _ _ _ _ Hloc). cbv beta iota zeta.
    destruct (located_calls _ _ _ _ _ _ Hloc) as (before & Hev & Hquiet & Hok).
    assert (Hkept : Shaped env s s2 (SecretControllerImport env req))
      by (apply (Shaped_quiet _ _ _ _ before); assumption).
    assert (Himport : forall arn keyAddr valueAddr next,
      Shaped env s
        (snd ((err ← acm_ImportCertificate env
                 (acm.mkImportCertificateInput
                    (index_bytes (corev1.Data secret) corev1.TLSCertKey)
                    (index_bytes (corev1.Data secret) corev1.TLSPrivateKeyKey)
                    [] arn
                    [types.mkTag
                       (Some (mkCell keyAddr "kubernetes-secrets"))
                       (Some (mkCell valueAddr
                                (corev1.Namespace secret +:+ "/"
                                   +:+ corev1.Name secret)))]);
               match err with
               | Some e => ret (ctrl.zero, Some e)
               | None => ret (ctrl.zero, None)
               end)
              (mkState next (events s2))))
        (SecretControllerImport env req)).
    { intros arn keyAddr valueAddr next.
      rewrite (run_bind _ _ _ _ _ (run_ImportCertificate _ _ _)).
      match goal with
      | |- context [CallImportCertificate ?i] =>
          apply (Shaped_import _ _ _ _ before i)
      end; try assumption.
      - destruct (env_ImportCertificate env _); simpl; rewrite Hev;
          reflexivity.
      - exists secret. simpl. repeat split; assumption. }
    destruct located as [existing|].
    + destruct (types.CertificateArn existing) as [cArn|];
        [|rewrite run_deref_nil; exact Hkept].
      rewrite run_deref_cell.
      destruct (types.NotAfter existing) as [c|] eqn:HnotAfter;
        [|rewrite run_deref_nil; exact Hkept].
      rewrite run_deref_cell.
      destruct (run_expired env existing s2) as [isExpired Hexp].
      rewrite (run_bind _ _ _ _ _ Hexp). cbv beta iota zeta.
      destruct isExpired; [|exact Hkept].
      rewrite run_deref_cell.
      unfold SecretController.updateToAcm. run_allocs. apply Himport.
    + unfold SecretController.importToAcm. run_allocs. apply Himport.
  - rewrite (run_bind_panic _ _ _ _ _ Hloc).
    destruct (located_no_import _ _ _ _ _ _ Hloc) as (evs & Hev & Hquiet).
    apply (Shaped_quiet _ _ _ _ evs); assumption.
Qed.

(** In a run of shape [importLast], an import call has nothing after it and
    only successful calls, none of them an import, before it. *)
Lemma importLast_inv (env : Env) (evs : list Event)
    (imported : option acm.ImportCertificateInput)
    (pre post : list Event) (ev : Event) :
  importLast env evs imported ->
  evs = pre ++ ev :: post ->
  isImport ev = true ->
  exists input,
    imported = Some input /\
    ev = mkEvent (CallImportCertificate input)
                 (env_ImportCertificate env input) /\
    post = [] /\
    Forall succeeded pre /\
    Forall (fun e => isImport e = false) pre.
Proof.
  intros Hshape -> Himp.
  destruct imported as [input|]; simpl in Hshape.
  - destruct Hshape as (before & Heq & Hquiet & Hok).
    exists input. split; [reflexivity|].
    revert pre Heq.
    induction before as [|b before IH]; intros pre Heq.
    + destruct pre as [|p pre]; simpl in Heq.
      * injection Heq as -> ->. repeat split; constructor.
      * injection Heq as _ Heq. destruct pre; discriminate.
    + destruct pre as [|p pre]; simpl in Heq.
      * injection Heq as -> _.
        apply Forall_inv in Hquiet. congruence.
      * injection Heq as -> Heq.
        apply Forall_cons_1 in Hquiet as [Hb Hquiet].
        apply Forall_cons_1 in Hok as [Hbok Hok].
        destruct (IH Hquiet Hok pre Heq) as (-> & -> & Hpre & Hnone).
        repeat split; try reflexivity; constructor; assumption.
  - apply Forall_app in Hshape as [_ Hshape].
    apply Forall_inv in Hshape. congruence.
Qed.

Section Imports.

Context {codec : pem.Codec}.

(** X8. In both variants a reconciliation imports at most once, and only as
    its last call: if an ImportCertificate call occurs among the calls of a
    run, no call follows it, no import precedes it, and every call before it
    (client construction, Get, every ListCertificates and DescribeCertificate)
    succeeded.  No import is ever issued after a failed fetch. *)
Theorem Reconcile_import_is_last
    (env : Env) (req : NamespacedName) (s : State)
    (pre post : list Event) (ev : Event) :
  isImport ev = true ->
  (newEvents s (snd (Part000.Reconcile env req s)) = pre ++ ev :: post ->
   post = [] /\ Forall succeeded pre /\
   Forall (fun e => isImport e = false) pre) /\
  (newEvents s (snd (SecretController.Reconcile env req s)) = pre ++ ev :: post ->
   post = [] /\ Forall succeeded pre /\
   Forall (fun e => isImport e = false) pre).
Proof.
  intros Himp. split; intros Hnew.
  - destruct (Part000_Shaped env req s) as (evs & imported & Hev & Hshape & _).
    rewrite (newEvents_app _ _ _ Hev) in Hnew.
    destruct (importLast_inv _ _ _ _ _ _ Hshape Hnew Himp)
      as (input & _ & _ & Hpost & Hok & Hquiet).
    repeat split; assumption.
  - destruct (SecretController_Shaped env req s)
      as (evs & imported & Hev & Hshape & _).
    rewrite (newEvents_app _ _ _ Hev) in Hnew.
    destruct (importLast_inv _ _ _ _ _ _ Hshape Hnew Himp)
      as (input & _ & _ & Hpost & Hok & Hquiet).
    repeat split; assumption.
Qed.

(** X9. Every import part_000 issues, CREATE or REPLACE, is built from the
    secret that the Get of this run returned: its certificate and chain are
    the leaf and chain of a successful split of the secret's "tls.crt"
    payload, its private key is the "tls.key" payload, and it carries exactly
    one tag, "kubernetes-secrets" = "<namespace>/<name>" of that secret.  The
    error recorded for the call is the service's answer to that input. *)
Theorem Part000_import_contents
    (env : Env) (req : NamespacedName) (s : State)
    (input : acm.ImportCertificateInput) (err : option error) :
  In (mkEvent (CallImportCertificate input) err)
     (newEvents s (snd (Part000.Reconcile env req s))) ->
  err = env_ImportCertificate env input /\
  exists secret,
    env_Get env req = GetFound secret /\
    splitCertificateChain (index_bytes (corev1.Data secret) corev1.TLSCertKey)
      = (acm.Certificate input, acm.CertificateChain input, None) /\
    acm.PrivateKey input
      = index_bytes (corev1.Data secret) corev1.TLSPrivateKeyKey /\
    map tagOf (acm.Tags input) = [ownershipTag secret].
Proof.
  intros Hin.
  destruct (Part000_Shaped env req s) as (evs & imported & Hev & Hshape & HQ).
  rewrite (newEvents_app _ _ _ Hev) in Hin.
  apply in_split in Hin as (pre & post & Hsplit).
  destruct (importLast_inv _ _ _ _ _ _ Hshape Hsplit eq_refl)
    as (input' & Himported & Heq & _).
  injection Heq as <- ->.
  split; [reflexivity|]. exact (HQ input Himported).
Qed.

(** X10. Every import secret_controller.go issues passes the secret's whole
    "tls.crt" payload as the certificate, unsplit and unchecked, with an empty
    chain; the private key is the "tls.key" payload and the only tag is
    "kubernetes-secrets" = "<namespace>/<name>" of the secret that the Get of
    this run returned. *)
Theorem SecretController_import_contents
    (env : Env) (req : NamespacedName) (s : State)
    (input : acm.ImportCertificateInput) (err : option error) :
  In (mkEvent (CallImportCertificate input) err)
     (newEvents s (snd (SecretController.Reconcile env req s))) ->
  err = env_ImportCertificate env input /\
  exists secret,
    env_Get env req = GetFound secret /\
    acm.Certificate input
      = index_bytes (corev1.Data secret) corev1.TLSCertKey /\
    acm.CertificateChain input = [] /\
    acm.PrivateKey input
      = index_bytes (corev1.Data secret) corev1.TLSPrivateKeyKey /\
    map tagOf (acm.Tags input) = [ownershipTag secret].
Proof.
  intros Hin.
  destruct (SecretController_Shaped env req s)
    as (evs & imported & Hev & Hshape & HQ).
  rewrite (newEvents_app _ _ _ Hev) in Hin.
  apply in_split in Hin as (pre & post & Hsplit).
  destruct (importLast_inv _ _ _ _ _ _ Hshape Hsplit eq_refl)
    as (input' & Himported & Heq & _).
  injection Heq as <- ->.
  split; [reflexivity|]. exact (HQ input Himported).
Qed.

End Imports.

(** ** The traversal of the locator, call by call *)

Lemma matchesSAN_In (sans : list string) (domainName : string) :
  matchesSAN sans domainName = true <-> In domainName sans.
Proof.
  induction sans as [|san sans IH]; simpl.
  - split; [discriminate | contradiction].
  - destruct (String.eqb san domainName) eqn:Heq.
    + apply String.eqb_eq in Heq. split; [left; exact Heq | reflexivity].
    + apply String.eqb_neq in Heq. rewrite IH.
      split; [right; assumption | intros [? | ?]; [contradiction | assumption]].
Qed.

(** A DescribeCertificate call that the service answers with a reply. *)
Lemma run_DescribeCertificate_reply (env : Env) (arn : option string)
    (reply : DetailReply) (s : State) :
  env_DescribeCertificate env arn = DescribeOutput (Some reply) ->
  exists d s',
    acm_DescribeCertificate env arn s = (Returns (Some d, None), s') /\
    events s' = events s ++ [describeCall arn] /\
    (next_addr s <= next_addr s')%positive /\
    describes reply d /\
    (forall c, types.DomainName d = Some c ->
               (next_addr s <= cell_addr c)%positive).
Proof.
  intros Hreply. unfold acm_DescribeCertificate. rewrite Hreply.
  destruct reply as [rArn rDomain rSANs rNotAfter].
  unfold mbind, Go_bind, bind, alloc_field, emit, alloc, ret, describes.
  simpl.
  destruct rArn, rDomain, rNotAfter; simpl; eexists _, _;
    (split; [reflexivity|]); simpl;
    (repeat split; try reflexivity; try lia);
    intros c [= <-]; simpl; lia.
Qed.

(** A record comes out of a DescribeCertificate call only as the image of a
    reply of the service. *)
Lemma DescribeCertificate_record_inv (env : Env) (arn : option string)
    (s s' : State) (d : types.CertificateDetail) (err : option error) :
  acm_DescribeCertificate env arn s = (Returns (Some d, err), s') ->
  exists reply,
    env_DescribeCertificate env arn = DescribeOutput (Some reply) /\
    describes reply d.
Proof.
  unfold acm_DescribeCertificate.
  destruct (env_DescribeCertificate env arn) as [e | [reply|]];
    [discriminate | | discriminate].
  intros Hrun. exists reply. split; [reflexivity|]. revert Hrun.
  destruct reply as [rArn rDomain rSANs rNotAfter].
  unfold mbind, Go_bind, bind, alloc_field, emit, alloc, ret, describes.
  simpl.
  destruct rArn, rDomain, rNotAfter; simpl; intros [= <- _]; simpl;
    repeat split; reflexivity.
Qed.

Section Traversal.

Variable env : Env.
Variable domainName : string.
Variable a : addr.

Let addrOfDomainName : ptr string := Some (mkCell a domainName).

(** Candidates that do not match are described one after the other, and the
    loop goes on with what follows them. *)
Lemma rangeSummaries_skip (pre : list (option string)) :
  forall s,
    (a < next_addr s)%positive ->
    Forall (NoMatch env domainName) pre ->
    exists s',
      events s' = events s ++ map describeCall pre /\
      (next_addr s <= next_addr s')%positive /\
      forall rest,
        rangeSummaries env addrOfDomainName domainName (pre ++ rest) s
        = rangeSummaries env addrOfDomainName domainName rest s'.
Proof.
  induction pre as [|arn pre IH]; intros s Hlt Hpre.
  - exists s. simpl. rewrite app_nil_r.
    split; [reflexivity|]. split; [lia|]. intros rest. reflexivity.
  - apply Forall_cons_1 in Hpre as [(reply & Hreply & Hsan) Hpre].
    destruct (run_DescribeCertificate_reply env arn reply s Hreply)
      as (d & s1 & Hrun & Hev & Hnext & Hd & Hfresh).
    destruct (IH s1) as (s' & Hev' & Hnext' & Hrest); [lia | exact Hpre |].
    exists s'. split; [|split; [lia|]].
    + rewrite Hev', Hev, <- app_assoc. reflexivity.
    + intros rest. simpl app. cbn [rangeSummaries].
      rewrite (run_bind _ _ _ _ _ Hrun). cbv beta iota.
      unfold addrOfDomainName at 1.
      rewrite (DomainName_never_equal domainName a d (next_addr s) Hlt Hfresh).
      destruct Hd as (_ & _ & -> & _). rewrite Hsan. apply Hrest.
Qed.

(** Pages without a match are listed and scanned one after the other. *)
Lemma rangePages_skip (pages : list (list (option string))) :
  forall s,
    (a < next_addr s)%positive ->
    Forall (NoMatch env domainName) (concat pages) ->
    exists s',
      events s' = events s ++ concat (map pageCalls pages) /\
      (next_addr s <= next_addr s')%positive /\
      forall rest,
        rangePages env addrOfDomainName domainName (morePages pages rest) s
        = rangePages env addrOfDomainName domainName rest s'.
Proof.
  induction pages as [|page pages IH]; intros s Hlt Hpages.
  - exists s. simpl. rewrite app_nil_r.
    split; [reflexivity|]. split; [lia|]. intros rest. reflexivity.
  - simpl in Hpages. apply Forall_app in Hpages as [Hpage Hpages].
    destruct (rangeSummaries_skip page
                (mkState (next_addr s)
                         (events s ++ [mkEvent CallListCertificates None])))
      as (s1 & Hev & Hnext & Hrest); [exact Hlt | exact Hpage |].
    simpl in Hev, Hnext.
    destruct (IH s1) as (s' & Hev' & Hnext' & Hmore); [lia | exact Hpages |].
    exists s'. split; [|split; [lia|]].
    + rewrite Hev', Hev. simpl. rewrite <- !app_assoc. reflexivity.
    + intros rest. simpl morePages. cbn [rangePages].
      rewrite (run_bind _ _ _ _ _ (run_emit _ _ _)).
      specialize (Hrest []). rewrite app_nil_r in Hrest.
      unfold mbind at 1, Go_bind at 1, bind at 1.
      rewrite Hrest. simpl. apply Hmore.
Qed.

(** The first page of a listing decides when its scan returns or panics. *)
Lemma rangePages_first_page (listing : Listing) (page : list (option string))
    (s s' : State)
    (out : Outcome (option types.CertificateDetail * option error)) :
  firstPage listing = Some page ->
  rangeSummaries env addrOfDomainName domainName page
    (mkState (next_addr s) (events s ++ [mkEvent CallListCertificates None]))
  = (match out with
     | Returns r => Returns (Some r)
     | Panics msg => Panics msg
     end, s') ->
  rangePages env addrOfDomainName domainName listing s = (out, s').
Proof.
  intros Hpage Hscan.
  destruct listing as [e | summaries | summaries listing'];
    [discriminate | |]; injection Hpage as ->; cbn [rangePages];
    rewrite (run_bind _ _ _ _ _ (run_emit _ _ _));
    unfold mbind, Go_bind, bind; rewrite Hscan;
    destruct out; reflexivity.
Qed.

End Traversal.

(** A returned record was described from a summary of the page. *)
Lemma rangeSummaries_sound (env : Env) (p : ptr string) (domainName : string)
    (summaries : list (option string)) :
  forall (s s' : State) (d : types.CertificateDetail) (err : option error),
    rangeSummaries env p domainName summaries s
      = (Returns (Some (Some d, err)), s') ->
    exists arn reply,
      In arn summaries /\
      env_DescribeCertificate env arn = DescribeOutput (Some reply) /\
      describes reply d.
Proof.
  induction summaries as [|certSummary summaries IH]; intros s s' d err.
  - discriminate.
  - cbn [rangeSummaries]. unfold mbind, Go_bind, bind.
    destruct (acm_DescribeCertificate env certSummary s)
      as [[[cert e]|msg] s1] eqn:Hdesc; [|discriminate].
    destruct e as [e|]; [discriminate|].
    destruct cert as [d0|]; [|discriminate].
    assert (Hfound : forall r : option error,
              (Returns (Some (Some d0, r)), s1)
                = (Returns (Some (Some d, err)), s') ->
              exists arn reply,
                In arn (certSummary :: summaries) /\
                env_DescribeCertificate env arn = DescribeOutput (Some reply) /\
                describes reply d).
    { intros r [= -> _ _].
      destruct (DescribeCertificate_record_inv _ _ _ _ _ _ Hdesc)
        as (reply & Hreply & Hd).
      exists certSummary, reply. split; [left; reflexivity|].
      split; assumption. }
    destruct (ptr_eqb _ _); [apply Hfound|].
    destruct (matchesSAN _ _); [apply Hfound|].
    intros Hrest. apply IH in Hrest as (arn & reply & Hin & Hreply & Hd).
    exists arn, reply. split; [right; exact Hin|]. split; assumption.
Qed.

Lemma rangePages_sound (env : Env) (p : ptr string) (domainName : string)
    (listing : Listing) :
  forall (s s' : State) (d : types.CertificateDetail) (err : option error),
    rangePages env p domainName listing s = (Returns (Some d, err), s') ->
    exists arn reply,
      In arn (summariesOf listing) /\
      env_DescribeCertificate env arn = DescribeOutput (Some reply) /\
      describes reply d.
Proof.
  induction listing as [e | summaries | summaries listing' IH];
    intros s s' d err; cbn [rangePages summariesOf];
    unfold mbind, Go_bind, bind; rewrite run_emit.
  - discriminate.
  - destruct (rangeSummaries env p domainName summaries _)
      as [[[[r e]|]|msg] s1] eqn:Hscan; try discriminate.
    intros [= -> -> _]. eapply rangeSummaries_sound. exact Hscan.
  - destruct (rangeSummaries env p domainName summaries _)
      as [[[[r e]|]|msg] s1] eqn:Hscan; try discriminate.
    + intros [= -> -> _].
      apply rangeSummaries_sound in Hscan as (arn & reply & Hin & Hrest).
      exists arn, reply. split; [apply in_or_app; left; exact Hin | exact Hrest].
    + intros Hmore.
      apply IH in Hmore as (arn & reply & Hin & Hrest).
      exists arn, reply. split; [apply in_or_app; right; exact Hin | exact Hrest].
Qed.

(** X11. Whenever the locator returns a record, the error is nil, the
    requested domain is one of the record's alternate names, and the record
    is what the client library built from the service's reply to a
    DescribeCertificate call for one of the summaries of the listing. *)
Theorem findSecretByDomain_sound
    (env : Env) (domainName : string) (s : State)
    (d : types.CertificateDetail) (err : option error) :
  fst (findSecretByDomain env domainName s) = Returns (Some d, err) ->
  err = None /\
  In domainName (types.SubjectAlternativeNames d) /\
  exists arn reply,
    In arn (summariesOf (env_ListCertificates env)) /\
    env_DescribeCertificate env arn = DescribeOutput (Some reply) /\
    describes reply d.
Proof.
  destruct (findSecretByDomain env domainName s) as [out s'] eqn:Hrun.
  simpl. intros ->.
  pose proof (findSecretByDomain_fetches _ _ _ _ _ Hrun)
    as (_ & _ & _ & Hnil & Hsan).
  split; [|split].
  - destruct err as [e|]; [|reflexivity].
    specialize (Hnil _ _ eq_refl). discriminate.
  - apply matchesSAN_In. eapply Hsan. reflexivity.
  - revert Hrun. unfold findSecretByDomain.
    rewrite (run_bind _ _ _ _ _ (run_alloc domainName s)).
    apply rangePages_sound.
Qed.

(** Where a traversal stands once the pages and the candidates before the
    deciding one have been gone through. *)
Lemma locator_reaches (env : Env) (domainName : string)
    (pages : list (list (option string))) (rest : Listing)
    (pre post : list (option string)) (arn : option string) (s : State) :
  env_ListCertificates env = morePages pages rest ->
  firstPage rest = Some (pre ++ arn :: post) ->
  Forall (NoMatch env domainName) (concat pages ++ pre) ->
  exists s1,
    (next_addr s < next_addr s1)%positive /\
    events s1 = events s ++ concat (map pageCalls pages) ++ pageCalls pre /\
    forall out s',
      rangeSummaries env (Some (mkCell (next_addr s) domainName)) domainName
                     (arn :: post) s1
      = (match out with
         | Returns r => Returns (Some r)
         | Panics msg => Panics msg
         end, s') ->
      findSecretByDomain env domainName s = (out, s').
Proof.
  intros Hlist Hfirst Hnone.
  apply Forall_app in Hnone as [Hpages Hpre].
  destruct (rangePages_skip env domainName (next_addr s) pages
              (mkState (Pos.succ (next_addr s)) (events s)))
    as (s0 & Hev0 & Hnext0 & Hmore); [simpl; lia | exact Hpages |].
  simpl in Hev0, Hnext0.
  destruct (rangeSummaries_skip env domainName (next_addr s) pre
              (mkState (next_addr s0)
                       (events s0 ++ [mkEvent CallListCertificates None])))
    as (s1 & Hev1 & Hnext1 & Hrest); [simpl; lia | exact Hpre |].
  simpl in Hev1, Hnext1.
  exists s1. split; [lia|]. split.
  - rewrite Hev1, Hev0. unfold pageCalls. simpl.
    rewrite <- !app_assoc. reflexivity.
  - intros out s' Hscan. unfold findSecretByDomain.
    rewrite (run_bind _ _ _ _ _ (run_alloc domainName s)), Hlist, Hmore.
    apply (rangePages_first_page _ _ _ _ _ _ _ _ Hfirst).
    rewrite Hrest. exact Hscan.
Qed.

(** X12. First match wins, and ends the traversal.  When the pages before,
    and the candidates of the page before, a candidate are described without
    a match, and that candidate's reply lists the requested domain among its
    alternate names, the locator returns the record built from that reply.
    Its calls are exactly: per earlier page one ListCertificates and one
    DescribeCertificate per summary, then the page's ListCertificates and the
    DescribeCertificate calls up to the matching candidate.  Later candidates
    and later pages are never requested. *)
Theorem findSecretByDomain_first_match
    (env : Env) (domainName : string)
    (pages : list (list (option string))) (rest : Listing)
    (pre post : list (option string)) (arn : option string)
    (reply : DetailReply) (s : State) :
  env_ListCertificates env = morePages pages rest ->
  firstPage rest = Some (pre ++ arn :: post) ->
  Forall (NoMatch env domainName) (concat pages ++ pre) ->
  env_DescribeCertificate env arn = DescribeOutput (Some reply) ->
  In domainName (reply_SubjectAlternativeNames reply) ->
  let run := findSecretByDomain env domainName s in
  exists d,
    fst run = Returns (Some d, None) /\
    describes reply d /\
    newEvents s (snd run)
      = concat (map pageCalls pages) ++ pageCalls (pre ++ [arn]).
Proof.
  intros Hlist Hfirst Hnone Hreply Hin run. subst run.
  destruct (locator_reaches _ _ _ _ _ _ _ s Hlist Hfirst Hnone)
    as (s1 & Hlt & Hev & Hdecide).
  destruct (run_DescribeCertificate_reply env arn reply s1 Hreply)
    as (d & s2 & Hrun & Hev2 & _ & Hd & Hfresh).
  exists d.
  rewrite (Hdecide (Returns (Some d, None)) s2).
  - simpl. split; [reflexivity|]. split; [exact Hd|].
    apply newEvents_app. rewrite Hev2, Hev. unfold pageCalls.
    rewrite map_app. simpl. rewrite <- !app_assoc. reflexivity.
  - cbn [rangeSummaries]. rewrite (run_bind _ _ _ _ _ Hrun). cbv beta iota.
    rewrite (DomainName_never_equal domainName (next_addr s) d (next_addr s1)
               Hlt Hfresh).
    destruct Hd as (_ & _ & Hsans & _). rewrite Hsans.
    apply matchesSAN_In in Hin. rewrite Hin. reflexivity.
Qed.

(** X13. A failed DescribeCertificate ends the traversal at once.  When the
    candidates before it are described without a match and the call for a
    candidate fails with [e], the locator returns a nil record and [e]; the
    failed call is its last call, so candidates and pages after it, matching
    or not, are never looked at. *)
Theorem findSecretByDomain_first_failure
    (env : Env) (domainName : string)
    (pages : list (list (option string))) (rest : Listing)
    (pre post : list (option string)) (arn : option string)
    (e : error) (s : State) :
  env_ListCertificates env = morePages pages rest ->
  firstPage rest = Some (pre ++ arn :: post) ->
  Forall (NoMatch env domainName) (concat pages ++ pre) ->
  env_DescribeCertificate env arn = DescribeFailed e ->
  let run := findSecretByDomain env domainName s in
  fst run = Returns (None, Some e) /\
  newEvents s (snd run)
    = concat (map pageCalls pages) ++ pageCalls pre
        ++ [mkEvent (CallDescribeCertificate arn) (Some e)].
Proof.
  intros Hlist Hfirst Hnone Hfailed run. subst run.
  destruct (locator_reaches _ _ _ _ _ _ _ s Hlist Hfirst Hnone)
    as (s1 & Hlt & Hev & Hdecide).
  rewrite (Hdecide (Returns (None, Some e))
             (mkState (next_addr s1)
                (events s1 ++ [mkEvent (CallDescribeCertificate arn) (Some e)]))).
  - simpl. split; [reflexivity|].
    apply newEvents_app. simpl. rewrite Hev, <- !app_assoc. reflexivity.
  - cbn [rangeSummaries]. unfold acm_DescribeCertificate. rewrite Hfailed.
    reflexivity.
Qed.

(** X14. A DescribeCertificate output without a certificate makes the locator
    panic: line 199 takes the output's Certificate pointer and line 200
    reads its DomainName field without a nil test.  Nothing is called after
    that DescribeCertificate. *)
Theorem findSecretByDomain_panics_on_missing_certificate
    (env : Env) (domainName : string)
    (pages : list (list (option string))) (rest : Listing)
    (pre post : list (option string)) (arn : option string) (s : State) :
  env_ListCertificates env = morePages pages rest ->
  firstPage rest = Some (pre ++ arn :: post) ->
  Forall (NoMatch env domainName) (concat pages ++ pre) ->
  env_DescribeCertificate env arn = DescribeOutput None ->
  let run := findSecretByDomain env domainName s in
  fst run = Panics "invalid memory address or nil pointer dereference" /\
  newEvents s (snd run)
    = concat (map pageCalls pages) ++ pageCalls (pre ++ [arn]).
Proof.
  intros Hlist Hfirst Hnone Hhollow run. subst run.
  destruct (locator_reaches _ _ _ _ _ _ _ s Hlist Hfirst Hnone)
    as (s1 & Hlt & Hev & Hdecide).
  rewrite (Hdecide (Panics "invalid memory address or nil pointer dereference")
             (mkState (next_addr s1) (events s1 ++ [describeCall arn]))).
  - simpl. split; [reflexivity|].
    apply newEvents_app. simpl. rewrite Hev. unfold pageCalls.
    rewrite map_app. simpl. rewrite <- !app_assoc. reflexivity.
  - cbn [rangeSummaries]. unfold acm_DescribeCertificate. rewrite Hhollow.
    reflexivity.
Qed.

(** X15. A traversal without a match visits everything: when every page can
    be listed and every summary is described without a match, the locator
    returns absent (nil, nil) after one ListCertificates per page and one
    DescribeCertificate per summary, in listing order, whatever the primary
    domains of the records are. *)
Theorem findSecretByDomain_absent_after_full_traversal
    (env : Env) (domainName : string)
    (pages : list (list (option string))) (last : list (option string))
    (s : State) :
  env_ListCertificates env = morePages pages (LastPage last) ->
  Forall (NoMatch env domainName) (concat pages ++ last) ->
  let run := findSecretByDomain env domainName s in
  fst run = Returns (None, None) /\
  newEvents s (snd run) = concat (map pageCalls (pages ++ [last])).
Proof.
  intros Hlist Hnone run. subst run.
  apply Forall_app in Hnone as [Hpages Hlast].
  destruct (rangePages_skip env domainName (next_addr s) pages
              (mkState (Pos.succ (next_addr s)) (events s)))
    as (s0 & Hev0 & Hnext0 & Hmore); [simpl; lia | exact Hpages |].
  simpl in Hev0, Hnext0.
  destruct (rangeSummaries_skip env domainName (next_addr s) last
              (mkState (next_addr s0)
                       (events s0 ++ [mkEvent CallListCertificates None])))
    as (s1 & Hev1 & Hnext1 & Hrest); [simpl; lia | exact Hlast |].
  simpl in Hev1. specialize (Hrest []). rewrite app_nil_r in Hrest.
  unfold findSecretByDomain.
  rewrite (run_bind _ _ _ _ _ (run_alloc domainName s)), Hlist, Hmore.
  cbn [rangePages]. rewrite (run_bind _ _ _ _ _ (run_emit _ _ _)).
  unfold mbind, Go_bind, bind. rewrite Hrest. simpl.
  split; [reflexivity|].
  apply newEvents_app. rewrite Hev1, Hev0, map_app, concat_app. simpl.
  rewrite app_nil_r, <- !app_assoc. reflexivity.
Qed.

(** ** The splitter on encoded blocks *)

Section SplitterRoundTrip.

Context {codec : pem.Codec}.

Lemma Decode_empty : pem.Decode [] = None.
Proof.
  destruct (pem.Decode []) as [[b rest]|] eqn:Hdec; [|reflexivity].
  apply pem.Decode_consumes in Hdec. simpl in Hdec. lia.
Qed.

(** Decoding a concatenation of encodings gives the blocks back. *)
Lemma pemBlocks_encoded (blocks : list pem.Block) :
  Forall decodesBack blocks ->
  pemBlocks (concat (map pem.EncodeToMemory blocks)) = blocks.
Proof.
  induction blocks as [|b blocks IH]; intros Hback; simpl.
  - apply pemBlocks_done, Decode_empty.
  - apply Forall_cons_1 in Hback as [Hb Hback].
    rewrite (pemBlocks_step _ _ _ (Hb _)), (IH Hback). reflexivity.
Qed.

(** The result of the splitter, read off the certificate blocks. *)
Lemma splitCertificateChain_by_blocks (data : bytes) :
  splitCertificateChain data =
    match certificateBlocks data with
    | [] => ([], [], Some (Errorf "no certificates found in PEM data"))
    | first :: others =>
        (pem.EncodeToMemory first,
         concat (map pem.EncodeToMemory others), None)
    end.
Proof.
  unfold splitCertificateChain. rewrite decodeAll_nil.
  destruct (certificateBlocks data) as [|first [|second others]];
    try reflexivity.
  simpl. rewrite appendChain_concat. reflexivity.
Qed.

Lemma filter_isCertificate_all (blocks : list pem.Block) :
  List.filter isCertificate (List.filter isCertificate blocks)
  = List.filter isCertificate blocks.
Proof.
  induction blocks as [|b blocks IH]; simpl; [reflexivity|].
  destruct (isCertificate b) eqn:Hb; simpl; [rewrite Hb, IH|]; auto.
Qed.

(** X16. Encoding, then splitting.  For blocks that [Decode] reads back from
    their encodings, splitting the concatenation of the encodings of a list of
    blocks returns the encoding of its first CERTIFICATE block as the leaf and
    the encodings of its later CERTIFICATE blocks, in order, as the chain;
    blocks of other types (a private key before, between or after the
    certificates) leave no trace in either. *)
Theorem splitCertificateChain_of_encoded
    (blocks : list pem.Block) (first : pem.Block) (others : list pem.Block) :
  Forall decodesBack blocks ->
  List.filter isCertificate blocks = first :: others ->
  splitCertificateChain (concat (map pem.EncodeToMemory blocks)) =
    (pem.EncodeToMemory first, concat (map pem.EncodeToMemory others), None).
Proof.
  intros Hback Hcerts.
  rewrite splitCertificateChain_by_blocks. unfold certificateBlocks.
  rewrite (pemBlocks_encoded _ Hback), Hcerts. reflexivity.
Qed.

(** X17. Splitting is stable on its own output: when an input splits into
    [leaf] and [chain] and its certificate blocks are read back from their
    encodings, the bundle [leaf ++ chain] splits into the same [leaf] and
    [chain]. *)
Theorem splitCertificateChain_stable
    (data leaf chain : bytes) :
  splitCertificateChain data = (leaf, chain, None) ->
  Forall decodesBack (certificateBlocks data) ->
  splitCertificateChain (leaf ++ chain) = (leaf, chain, None).
Proof.
  rewrite splitCertificateChain_by_blocks.
  destruct (certificateBlocks data) as [|first others] eqn:Hcerts;
    [discriminate|].
  intros [= <- <-] Hback.
  change (pem.EncodeToMemory first ++ concat (map pem.EncodeToMemory others))
    with (concat (map pem.EncodeToMemory (first :: others))).
  rewrite splitCertificateChain_by_blocks. unfold certificateBlocks.
  rewrite (pemBlocks_encoded _ Hback), <- Hcerts.
  unfold certificateBlocks. rewrite filter_isCertificate_all.
  fold (certificateBlocks data). rewrite Hcerts. reflexivity.
Qed.

End SplitterRoundTrip.

(** ** The further properties on concrete runs *)

Section EdgeRuns.

#[local] Existing Instance sampleCodec.

Lemma emptySecret_Eligible : Eligible Edge.emptySecret "example.com".
Proof. repeat split; try reflexivity. discriminate. Qed.

Lemma Reconcile_secret_not_fetched_witness :
  Part000.Reconcile Edge.deletedWorld Sample.req initial
  = (Returns (ctrl.zero, None),
     mkState 1%positive
       [mkEvent CallNewACMClient None;
        mkEvent (CallGet Sample.req)
                (Some (mkError "secrets web-tls not found" true))]) /\
  SecretController.Reconcile Edge.unreadableWorld Sample.req initial
  = (Returns (ctrl.zero, Some (mkError "connection refused" false)),
     mkState 1%positive
       [mkEvent CallNewACMClient None;
        mkEvent (CallGet Sample.req)
                (Some (mkError "connection refused" false))]).
Proof.
  split.
  - apply (Reconcile_secret_not_fetched Edge.deletedWorld Sample.req
             (mkError "secrets web-tls not found" true) initial);
      reflexivity.
  - apply (Reconcile_secret_not_fetched Edge.unreadableWorld Sample.req
             (mkError "connection refused" false) initial);
      reflexivity.
Defined.

Lemma Reconcile_without_certificate_payload_witness :
  Part000.Reconcile Edge.emptySecretWorld Sample.req initial
  = (Returns (ctrl.after (5 * time.Minute)%Z,
              Some (Errorf "no certificates found in PEM data")),
     snd (findSecretByDomain Edge.emptySecretWorld "example.com"
                             (fetched Sample.req initial))).
Proof.
  apply (Reconcile_without_certificate_payload
           Edge.emptySecretWorld Sample.req Edge.emptySecret "example.com"
           None initial).
  - reflexivity.
  - reflexivity.
  - exact emptySecret_Eligible.
  - reflexivity.
  - reflexivity.
Defined.

(** The record expired five nanoseconds before now. *)
Lemma SecretController_decision_witness :
  exists input,
    importedAfter
      (Sample.world 10%Z (Some 5%Z))
      (snd (findSecretByDomain (Sample.world 10%Z (Some 5%Z)) "example.com"
                               (fetched Sample.req initial)))
      (snd (SecretController.Reconcile (Sample.world 10%Z (Some 5%Z))
                                       Sample.req initial))
      input /\
    pointee (acm.CertificateArn input) = Some Sample.arn /\
    acm.Certificate input = Sample.bundle /\
    acm.CertificateChain input = [].
Proof.
  destruct (SecretController_decision
              (Sample.world 10%Z (Some 5%Z)) Sample.req Sample.secret
              "example.com" (Some (Runs.existing (Some 5%Z))) initial _
              eq_refl eq_refl secret_Eligible (world_located 10%Z (Some 5%Z)))
    as (_ & Hreplace & _).
  destruct (Hreplace (Runs.existing (Some 5%Z)) Sample.arn 5%Z
                     eq_refl eq_refl eq_refl)
    as (input & Himported & _ & Harn & Hcert & Hchain & _).
  - vm_compute. reflexivity.
  - exists input. repeat split; assumption.
Defined.

Lemma SecretController_panics_on_nil_field_witness :
  SecretController.Reconcile (Sample.world 0%Z None) Sample.req initial
  = (Panics "invalid memory address or nil pointer dereference",
     snd (findSecretByDomain (Sample.world 0%Z None) "example.com"
                             (fetched Sample.req initial))).
Proof.
  apply (SecretController_panics_on_nil_field
           (Sample.world 0%Z None) Sample.req Sample.secret "example.com"
           (Runs.existing None) initial).
  - reflexivity.
  - reflexivity.
  - exact secret_Eligible.
  - exact (world_located 0%Z None).
  - right. reflexivity.
Defined.

(** The locate step fails: the error is returned, still without a requeue. *)
Lemma SecretController_never_requeues_witness :
  match fst (SecretController.Reconcile Sample.brokenWorld Sample.req initial)
  with
  | Returns (result, _) => result = ctrl.zero
  | Panics _ => False
  end.
Proof.
  apply (SecretController_never_requeues
           Sample.brokenWorld Sample.req initial
           (snd (SecretController.Reconcile Sample.brokenWorld Sample.req initial))
           (ctrl.mkResult false 0%Z)
           (Some (Errorf "ThrottlingException"))).
  reflexivity.
Defined.

Lemma Reconcile_interval_matches_error_witness :
  ctrl.after (5 * time.Minute)%Z = ctrl.zero \/
  ctrl.after (5 * time.Minute)%Z = ctrl.after (5 * time.Minute)%Z.
Proof.
  apply (Reconcile_interval_matches_error
           Sample.brokenWorld Sample.req initial
           (snd (Part000.Reconcile Sample.brokenWorld Sample.req initial))
           (ctrl.after (5 * time.Minute)%Z)
           (Some (Errorf "ThrottlingException"))).
  reflexivity.
Defined.

Lemma Reconcile_returns_witness :
  exists result err s',
    Part000.Reconcile (Sample.world 0%Z None) Sample.req initial
    = (Returns (result, err), s').
Proof.
  apply (Reconcile_returns (Sample.world 0%Z None) Sample.req initial).
  intros arn. discriminate.
Defined.

Lemma empty_catalog_calls :
  newEvents initial (snd (Part000.Reconcile Sample.emptyWorld Sample.req initial))
  = Edge.quietPrefix ++ [mkEvent (CallImportCertificate Edge.createdInput) None].
Proof. vm_compute. reflexivity. Qed.

Lemma empty_catalog_calls_whole :
  newEvents initial
    (snd (SecretController.Reconcile Sample.emptyWorld Sample.req initial))
  = Edge.quietPrefix
      ++ [mkEvent (CallImportCertificate Edge.createdWholeInput) None].
Proof. vm_compute. reflexivity. Qed.

Lemma Reconcile_import_is_last_witness :
  Forall succeeded Edge.quietPrefix /\
  Forall (fun e => isImport e = false) Edge.quietPrefix.
Proof.
  destruct (Reconcile_import_is_last
              Sample.emptyWorld Sample.req initial Edge.quietPrefix []
              (mkEvent (CallImportCertificate Edge.createdInput) None)
              eq_refl) as [Hlast _].
  destruct (Hlast empty_catalog_calls) as (_ & Hok & Hquiet).
  split; assumption.
Defined.

Lemma Part000_import_contents_witness :
  exists secret,
    env_Get Sample.emptyWorld Sample.req = GetFound secret /\
    splitCertificateChain (index_bytes (corev1.Data secret) corev1.TLSCertKey)
      = (acm.Certificate Edge.createdInput,
         acm.CertificateChain Edge.createdInput, None) /\
    acm.PrivateKey Edge.createdInput
      = index_bytes (corev1.Data secret) corev1.TLSPrivateKeyKey /\
    map tagOf (acm.Tags Edge.createdInput) = [ownershipTag secret].
Proof.
  apply (Part000_import_contents Sample.emptyWorld Sample.req initial
           Edge.createdInput None).
  rewrite empty_catalog_calls. apply in_or_app. right. left. reflexivity.
Defined.

Lemma SecretController_import_contents_witness :
  exists secret,
    env_Get Sample.emptyWorld Sample.req = GetFound secret /\
    acm.Certificate Edge.createdWholeInput
      = index_bytes (corev1.Data secret) corev1.TLSCertKey /\
    acm.CertificateChain Edge.createdWholeInput = [] /\
    acm.PrivateKey Edge.createdWholeInput
      = index_bytes (corev1.Data secret) corev1.TLSPrivateKeyKey /\
    map tagOf (acm.Tags Edge.createdWholeInput) = [ownershipTag secret].
Proof.
  apply (SecretController_import_contents Sample.emptyWorld Sample.req initial
           Edge.createdWholeInput None).
  rewrite empty_catalog_calls_whole. apply in_or_app. right. left. reflexivity.
Defined.

Lemma findSecretByDomain_sound_witness :
  In "example.com"
     (types.SubjectAlternativeNames (Runs.existing (Some 0%Z))) /\
  exists arn reply,
    In arn (summariesOf (env_ListCertificates (Sample.world 0%Z (Some 0%Z)))) /\
    env_DescribeCertificate (Sample.world 0%Z (Some 0%Z)) arn
      = DescribeOutput (Some reply) /\
    describes reply (Runs.existing (Some 0%Z)).
Proof.
  apply (findSecretByDomain_sound (Sample.world 0%Z (Some 0%Z)) "example.com"
           initial (Runs.existing (Some 0%Z)) None).
  reflexivity.
Defined.

Lemma foreign_NoMatch (arn : option string) :
  arn <> Some "b" -> arn <> Some "x" ->
  NoMatch Edge.pagedWorld "example.com" arn /\
  NoMatch Edge.foreignWorld "example.com" arn /\
  NoMatch Edge.flakyWorld "example.com" arn.
Proof.
  intros Hb Hx.
  repeat split; exists (Edge.replyFor arn); simpl; unfold Edge.replyFor;
    repeat (destruct (decide _); try contradiction);
    split; reflexivity.
Qed.

Lemma findSecretByDomain_first_match_witness :
  exists d,
    fst (findSecretByDomain Edge.pagedWorld "example.com" initial)
    = Returns (Some d, None) /\
    describes (Edge.replyFor (Some "b")) d /\
    newEvents initial
      (snd (findSecretByDomain Edge.pagedWorld "example.com" initial))
    = [mkEvent CallListCertificates None; describeCall (Some "a");
       mkEvent CallListCertificates None; describeCall (Some "b")].
Proof.
  apply (findSecretByDomain_first_match
           Edge.pagedWorld "example.com" [[Some "a"]]
           (MorePages [Some "b"; Some "c"]
              (ListFailed (Errorf "ThrottlingException")))
           [] [Some "c"] (Some "b") (Edge.replyFor (Some "b")) initial).
  - reflexivity.
  - reflexivity.
  - repeat constructor. apply (foreign_NoMatch (Some "a")); discriminate.
  - reflexivity.
  - left. reflexivity.
Defined.

Lemma findSecretByDomain_first_failure_witness :
  fst (findSecretByDomain Edge.flakyWorld "example.com" initial)
  = Returns (None, Some (Errorf "ThrottlingException")) /\
  newEvents initial
    (snd (findSecretByDomain Edge.flakyWorld "example.com" initial))
  = [mkEvent CallListCertificates None; describeCall (Some "a");
     mkEvent (CallDescribeCertificate (Some "x"))
             (Some (Errorf "ThrottlingException"))].
Proof.
  apply (findSecretByDomain_first_failure
           Edge.flakyWorld "example.com" []
           (LastPage [Some "a"; Some "x"; Some "b"])
           [Some "a"] [Some "b"] (Some "x")
           (Errorf "ThrottlingException") initial).
  - reflexivity.
  - reflexivity.
  - repeat constructor. apply (foreign_NoMatch (Some "a")); discriminate.
  - reflexivity.
Defined.

Lemma findSecretByDomain_panics_on_missing_certificate_witness :
  fst (findSecretByDomain Edge.hollowWorld "example.com" initial)
  = Panics "invalid memory address or nil pointer dereference" /\
  newEvents initial
    (snd (findSecretByDomain Edge.hollowWorld "example.com" initial))
  = [mkEvent CallListCertificates None; describeCall (Some Sample.arn)].
Proof.
  apply (findSecretByDomain_panics_on_missing_certificate
           Edge.hollowWorld "example.com" [] (LastPage [Some Sample.arn])
           [] [] (Some Sample.arn) initial).
  - reflexivity.
  - reflexivity.
  - constructor.
  - reflexivity.
Defined.

Lemma findSecretByDomain_absent_after_full_traversal_witness :
  fst (findSecretByDomain Edge.foreignWorld "example.com" initial)
  = Returns (None, None) /\
  newEvents initial
    (snd (findSecretByDomain Edge.foreignWorld "example.com" initial))
  = [mkEvent CallListCertificates None; describeCall (Some "a");
     mkEvent CallListCertificates None; describeCall (Some "c");
     describeCall (Some "d")].
Proof.
  apply (findSecretByDomain_absent_after_full_traversal
           Edge.foreignWorld "example.com" [[Some "a"]] [Some "c"; Some "d"]
           initial).
  - reflexivity.
  - repeat constructor;
      match goal with
      | |- NoMatch _ _ ?arn => apply (foreign_NoMatch arn); discriminate
      end.
Defined.

Lemma sample_blocks_decodesBack :
  Forall decodesBack
         [Edge.keyBlock; Runs.certBlock ["a"; "b"]%byte;
          Runs.certBlock ["c"]%byte].
Proof. repeat constructor; intros rest; reflexivity. Qed.

Lemma splitCertificateChain_of_encoded_witness :
  splitCertificateChain
    (concat (map pem.EncodeToMemory
               [Edge.keyBlock; Runs.certBlock ["a"; "b"]%byte;
                Runs.certBlock ["c"]%byte]))
  = (pem.EncodeToMemory (Runs.certBlock ["a"; "b"]%byte),
     concat (map pem.EncodeToMemory [Runs.certBlock ["c"]%byte]), None).
Proof.
  apply (splitCertificateChain_of_encoded
           [Edge.keyBlock; Runs.certBlock ["a"; "b"]%byte;
            Runs.certBlock ["c"]%byte]).
  - exact sample_blocks_decodesBack.
  - reflexivity.
Defined.

Lemma splitCertificateChain_stable_witness :
  splitCertificateChain (Runs.leaf ++ Runs.chain)
  = (Runs.leaf, Runs.chain, None).
Proof.
  apply (splitCertificateChain_stable Sample.bundle Runs.leaf Runs.chain).
  - vm_compute. reflexivity.
  - replace (certificateBlocks Sample.bundle)
      with [Runs.certBlock ["a"; "b"]%byte; Runs.certBlock ["c"]%byte]
      by (vm_compute; reflexivity).
    repeat constructor; intros rest; reflexivity.
Defined.

End EdgeRuns.

(** ** A record without expiry, and a secret without certificate *)

(** The split of line 82 comes before the decision: for a secret whose
    payload holds no certificate, the run ends at line 84 with the split
    error and a requeue after 5 minutes, although the located record has no
    expiry. *)
Lemma keeps_record_without_expiry_whatever_the_payload_fails :
  ~ keeps_record_without_expiry_whatever_the_payload.
Proof.
  intros Hclaim.
  specialize (Hclaim sampleCodec Edge.payloadlessWorld Sample.req
                Edge.emptySecret "example.com" (Runs.existing None) initial
                (snd (findSecretByDomain Edge.payloadlessWorld "example.com"
                                         (fetched Sample.req initial)))
                eq_refl eq_refl emptySecret_Eligible eq_refl eq_refl).
  vm_compute in Hclaim. discriminate Hclaim.
Qed.
